(** * Voice anti-spoofing front end: ingestion pipeline of [API/streamlit_app.py]

    A shallow embedding of the three helper functions of the Streamlit
    application:

    - [extract_audio_metadata] (lines 23-62): decode, down-mix, coerce,
      resample, then compute the descriptor dictionary;
    - [process_audio_file] (lines 65-105): stage the upload in a temporary
      directory, extract descriptors, call the classifier, clean up;
    - [render_results] (lines 108-264): the result card, the descriptor
      cards and the waveform;
    - [main] (lines 269-608): one run of the Streamlit script, from the
      values its widgets return.

    Python exceptions are explicit results, the file system and standard
    output are an explicit [world] threaded through a state-and-error monad,
    and the library calls the application makes ([soundfile.read],
    [librosa.resample], [librosa.yin], [librosa.feature.rms], the classifier
    [infa_deepfake], the upload's [read], and [open]/[write]) are parameters
    of the development: each may return or raise.

    Numbers: samples and metrics are exact rationals extended with the
    not-a-number value; the rounding of [numpy.float32] is a parameter
    [float32].  Infinities are not modelled. *)

From Stdlib Require Import ZArith QArith Qcanon Qcabs Qround Lqa String Ascii.
From stdpp Require Import base option list gmap sets strings.

Open Scope string_scope.

(** ** Exceptions and results *)

(** Python separates the exceptions that [except Exception] catches from the
    ones deriving from [BaseException] only ([KeyboardInterrupt],
    [SystemExit]), which it lets through. *)
Inductive exn : Type :=
  | PyException (msg : string)
  | PyBaseException (msg : string).

Definition is_Exception (e : exn) : bool :=
  match e with
  | PyException _ => true
  | PyBaseException _ => false
  end.

(** [str(e)] *)
Definition exn_str (e : exn) : string :=
  match e with
  | PyException msg => msg
  | PyBaseException msg => msg
  end.

Inductive result (A : Type) : Type :=
  | Return (a : A)
  | Raise (e : exn).
Arguments Return {A} a.
Arguments Raise {A} e.

#[global] Instance result_ret : MRet result := fun A a => Return a.
#[global] Instance result_bind : MBind result := fun A B f r =>
  match r with
  | Return a => f a
  | Raise e => Raise e
  end.

(** An outcome that [except Exception] leaves alone or absorbs: a value, or
    an exception deriving from [Exception]. *)
Definition catchable {A} (r : result A) : Prop :=
  match r with
  | Return _ => True
  | Raise e => is_Exception e = true
  end.

(** ** The world: directories, files, standard output *)

Record world : Type := World {
  dirs : gset string;
  files : gmap string string;  (* path to contents, a byte string *)
  stdout : list string;
}.

(** State-and-error monad: a computation runs in a world and yields a value
    or an exception together with the world it leaves behind. *)
Definition M (A : Type) : Type := world -> result A * world.

#[global] Instance M_ret : MRet M := fun A a w => (Return a, w).
#[global] Instance M_bind : MBind M := fun A B f m w =>
  match m w with
  | (Return a, w1) => f a w1
  | (Raise e, w1) => (Raise e, w1)
  end.

(** A pure call that may raise, run inside [M]. *)
Definition liftR {A} (r : result A) : M A := fun w => (r, w).

(** A call that reads the world without changing it. *)
Definition readW {A} (f : world -> result A) : M A := fun w => (f w, w).

(** [try: body / except Exception as e: handler e] *)
Definition try_except_Exception {A} (body : M A) (handler : exn -> M A) : M A :=
  fun w =>
    match body w with
    | (Return a, w1) => (Return a, w1)
    | (Raise e, w1) => if is_Exception e then handler e w1 else (Raise e, w1)
    end.

(** [try: body / finally: fin].  The final block always runs; if it raises,
    its exception replaces the outcome of the body. *)
Definition try_finally {A} (body : M A) (fin : M unit) : M A :=
  fun w =>
    let '(r, w1) := body w in
    match fin w1 with
    | (Return _, w2) => (r, w2)
    | (Raise e, w2) => (Raise e, w2)
    end.

(** [print(a, b)]: the arguments separated by one space, on one line. *)
Definition print (args : list string) : M unit :=
  fun w =>
    (Return tt,
     {| dirs := dirs w; files := files w;
        stdout := stdout w ++ [String.concat " " args] |}).

(** *** Paths *)

(** [os.path.join(a, b)] of [posixpath]: an absolute [b] discards [a]; an
    empty [a] or one ending in a slash takes [b] as it is; otherwise a slash
    is put between them. *)
Definition startswith_sep (s : string) : bool :=
  match s with
  | String "/" _ => true
  | _ => false
  end.

Fixpoint endswith_sep (s : string) : bool :=
  match s with
  | EmptyString => false
  | String c EmptyString => Ascii.eqb c "/"
  | String _ rest => endswith_sep rest
  end.

Definition os_path_join (a b : string) : string :=
  if startswith_sep b then b
  else if (String.eqb a EmptyString || endswith_sep a)%bool then a +:+ b
  else a +:+ "/" +:+ b.

(** [p] is the directory [d] or lies below it. *)
Definition in_tree (d p : string) : bool :=
  (String.eqb p d || String.prefix (d +:+ "/") p)%bool.

(** [tempfile.mkdtemp()]: creates a directory under a name that is not in
    use and returns the name. *)
Definition mkdtemp_name (w : world) : string :=
  fresh (dirs w ∪ dom (files w)).

Definition mkdtemp : M string :=
  fun w =>
    let d := mkdtemp_name w in
    (Return d,
     {| dirs := {[ d ]} ∪ dirs w; files := files w; stdout := stdout w |}).

(** [shutil.rmtree(d, ignore_errors=True)]: deletes [d] and everything
    below it; with [ignore_errors] it never raises (a directory that is
    already gone is not an error). *)
Definition shutil_rmtree (d : string) : M unit :=
  fun w =>
    (Return tt,
     {| dirs := filter (fun p => in_tree d p = false) (dirs w);
        files := filter (fun kv => in_tree d kv.1 = false) (files w);
        stdout := stdout w |}).

(** ** Numbers and arrays *)

(** A floating-point value: a rational, or not-a-number. *)
Inductive npfloat : Type :=
  | Num (q : Qc)
  | NaN.

Definition Qc_of_Z (z : Z) : Qc := Q2Qc (inject_Z z).
Definition Qc_of_nat (n : nat) : Qc := Qc_of_Z (Z.of_nat n).

Definition isnan (x : npfloat) : bool :=
  match x with
  | NaN => true
  | Num _ => false
  end.

(** Addition; not-a-number absorbs. *)
Definition np_add (x y : npfloat) : npfloat :=
  match x, y with
  | Num a, Num b => Num (a + b)
  | _, _ => NaN
  end.

Definition np_sum (l : list npfloat) : npfloat :=
  fold_right np_add (Num 0) l.

(** [np.mean] of a one-dimensional sequence.  The mean of no value is
    not-a-number (numpy divides zero by zero and warns; the application
    silences warnings at line 17). *)
Definition np_mean (l : list npfloat) : npfloat :=
  match l, np_sum l with
  | [], _ => NaN
  | _ :: _, Num s => Num (s / Qc_of_nat (length l))
  | _ :: _, NaN => NaN
  end.

(** [np.nanmean]: the mean of the values that are numbers. *)
Definition np_nanmean (l : list npfloat) : npfloat :=
  np_mean (List.filter (fun x => negb (isnan x)) l).

(** What [soundfile.read(path, always_2d=False)] hands back: a
    one-dimensional array of samples for a single-channel file, otherwise a
    two-dimensional array of shape (frames, channels), here the list of
    frames, each frame the list of its channels' samples. *)
Inductive ndarray : Type :=
  | Arr1 (y : list npfloat)
  | Arr2 (rows : list (list npfloat)).

Definition ndim (y : ndarray) : nat :=
  match y with
  | Arr1 _ => 1
  | Arr2 _ => 2
  end.

(** Lines 28-29: [if y.ndim > 1: y = np.mean(y, axis=1)].  Axis 1 is the
    channel axis, so every frame is replaced by the mean of its channels.
    From here on [y] is one-dimensional. *)
Definition to_mono (y : ndarray) : list npfloat :=
  match y with
  | Arr1 s => s
  | Arr2 rows => map np_mean rows
  end.

(** The values stored in the descriptor dictionary. *)
Inductive pyval : Type :=
  | VInt (z : Z)
  | VFloat (x : npfloat)
  | VArr (y : list npfloat).

(** The dictionary literal of lines 55-62 and 91-98. *)
Definition audio_info_dict (samples sr : Z) (duration avg_pitch avg_energy : npfloat)
    (waveform : list npfloat) : gmap string pyval :=
  <["samples" := VInt samples]> (
  <["sr" := VInt sr]> (
  <["duration" := VFloat duration]> (
  <["avg_pitch" := VFloat avg_pitch]> (
  <["avg_energy" := VFloat avg_energy]> (
  <["waveform" := VArr waveform]> ∅))))).

(** [librosa.get_duration(y=y, sr=sr)]: the number of samples divided by the
    rate, a float division, which raises on a zero rate. *)
Definition get_duration (y : list npfloat) (sr : Z) : result npfloat :=
  if (sr =? 0)%Z then Raise (PyException "ZeroDivisionError: float division by zero")
  else Return (Num (Qc_of_nat (length y) / Qc_of_Z sr)).

(** What Streamlit hands to [process_audio_file]: a display name and a
    readable stream. *)
Record UploadedFile : Type := {
  name : string;
  read : M string;
}.

(** ** The collaborators

    The library calls of the application.  Their code is not part of the
    repository; each is a function that returns or raises. *)
Class Collaborators : Type := {
  (** [numpy.float32] rounding of a finite value. *)
  float32 : Qc -> Qc;
  (** [soundfile.read(filepath, always_2d=False)]: samples and native rate. *)
  sf_read : string -> world -> result (ndarray * Z);
  (** [librosa.resample(y=y, orig_sr=.., target_sr=..)] *)
  librosa_resample : list npfloat -> Z -> Z -> result (list npfloat);
  (** [librosa.yin(y, fmin=.., fmax=..)]: one estimate per frame. *)
  librosa_yin : list npfloat -> Z -> Z -> result (list npfloat);
  (** [librosa.feature.rms(y=y)]: one energy per frame. *)
  librosa_rms : list npfloat -> result (list npfloat);
  (** The classifier, [infa_deepfake(path)], returning (status, message). *)
  infa_deepfake : string -> M (Z * string);
  (** [with open(path, "wb") as f: f.write(data)] *)
  open_wb_write : string -> string -> M unit;
}.

(** ** The pipeline *)

Section Pipeline.

Context `{ext : Collaborators}.

Definition np_float32 (x : npfloat) : npfloat :=
  match x with
  | Num q => Num (float32 q)
  | NaN => NaN
  end.

(** Line 32: [np.array(y, dtype=np.float32)] *)
Definition np_array_float32 (y : list npfloat) : list npfloat :=
  map np_float32 y.

Definition target_sr : Z := 16000.

(** Lines 27-38, on what [sf.read] returned. *)
Definition normalize_decoded (d : ndarray * Z) : result (list npfloat * Z) :=
  let '(y, sr) := d in
  let y := to_mono y in
  let y := np_array_float32 y in
  if negb (sr =? target_sr)%Z then
    y ← librosa_resample y sr target_sr;
    mret (y, target_sr)
  else
    mret (y, sr).

(** Lines 40-62, on the normalised signal. *)
Definition describe (y : list npfloat) (sr : Z) : M (gmap string pyval) :=
  duration ← liftR (get_duration y sr);
  avg_pitch ← try_except_Exception
    (pitch ← liftR (librosa_yin y 50 300); mret (np_nanmean pitch))
    (fun _ => mret NaN);
  avg_energy ← try_except_Exception
    (rms ← liftR (librosa_rms y); mret (np_nanmean rms))
    (fun _ => mret NaN);
  mret (audio_info_dict (Z.of_nat (length y)) sr duration avg_pitch avg_energy y).

Definition extract_audio_metadata (filepath : string) : M (gmap string pyval) :=
  d ← readW (sf_read filepath);
  '(y, sr) ← liftR (normalize_decoded d);
  describe y sr.

(** Lines 91-98: the record substituted when extraction raises. *)
Definition default_audio_info : gmap string pyval :=
  audio_info_dict 0 0 (Num 0) NaN NaN [].

(** Lines 81-100: the body of the [try] ... [finally]. *)
Definition process_body (uploaded_file : UploadedFile) (temp_file_path : string)
    : M (Z * string * gmap string pyval) :=
  data ← read uploaded_file;
  _ ← open_wb_write temp_file_path data;
  audio_info ← try_except_Exception
    (extract_audio_metadata temp_file_path)
    (fun e =>
       _ ← print ["Metadata extraction failed:"; exn_str e];
       mret default_audio_info);
  '(status, message) ← infa_deepfake temp_file_path;
  mret (status, message, audio_info).

(** Lines 76-105. *)
Definition process_audio_file (uploaded_file : UploadedFile)
    : M (Z * string * gmap string pyval) :=
  temp_dir ← mkdtemp;
  let temp_file_path := os_path_join temp_dir (name uploaded_file) in
  _ ← print ["filepath: "; temp_file_path];
  try_finally (process_body uploaded_file temp_file_path) (shutil_rmtree temp_dir).

End Pipeline.

(** ** The result card of [render_results] *)

Definition ascii_lower (c : ascii) : ascii :=
  let n := nat_of_ascii c in
  if ((65 <=? n) && (n <=? 90))%nat then ascii_of_nat (n + 32) else c.

(** [s.lower()] on a UTF-8 byte string, as far as ASCII goes: the letters A
    to Z are lowered, and so is the one other character whose lower case is
    an ASCII letter of the word looked for, the Kelvin sign U+212A (bytes
    226 132 170), which lowers to k.  Other bytes stay. *)
Fixpoint str_lower (s : string) : string :=
  match s with
  | String "226" (String "132" (String "170" rest)) => String "k" (str_lower rest)
  | String c rest => String (ascii_lower c) (str_lower rest)
  | EmptyString => EmptyString
  end.

(** [needle in hay] on strings. *)
Fixpoint str_contains (needle hay : string) : bool :=
  (String.prefix needle hay ||
   match hay with
   | EmptyString => false
   | String _ rest => str_contains needle rest
   end)%bool.

Record card : Type := Card {
  bg : string;
  border : string;
  heading_color : string;
  title : string;
  text_color : string;
  body : string;
}.

Inductive st_call : Type :=
  | st_markdown (c : card)
  | st_write (obj : string).

(** Lines 121-165. *)
Definition render_result_card (status : Z) (message : string) : list st_call :=
  if (status =? 1)%Z then
    let is_fake := str_contains "fake" (str_lower message) in
    let '(bg, border, heading_color, text_color, title) :=
      if is_fake then
        ("#fee2e2", "#fecaca", "#b91c1c", "#7f1d1d", "❌ Deepfake Detected")
      else
        ("#dcfce7", "#bbf7d0", "#166534", "#065f46", "✅ Real Audio") in
    [st_markdown (Card bg border heading_color title text_color message)]
  else
    [st_markdown (Card "#fef9c3" "#fef08a" "#854d0e" "⚠️ Inference Failed" "#713f12"
                    "Something went wrong while processing this audio.");
     st_write message].

(** ** The descriptor cards of [render_results] and the script [main]

    One run of the Streamlit script is a function of the values its widgets
    return in that run; the session state, the file system and the screen
    (the calls made to Streamlit, in order) are threaded through it.  The
    literal HTML and CSS blocks are named, not spelled out, and calls that
    only arrange the layout ([st.columns], [st.container]) leave no trace. *)

(** Python's number formatting, as the f-strings use it. *)
Class Formatting : Type := {
  (** [format(x, ".2f")], [format(x, ".5f")]: the number of digits first. *)
  format_fixed : nat -> npfloat -> string;
  (** [format(v, "")], an f-string field without a format. *)
  format_plain : pyval -> string;
}.

(** The markdown literals without a varying part, by the lines they stand on. *)
Inductive static_block : Type :=
  | detection_result_title   (* 110-118 *)
  | line_break               (* "<br>" *)
  | audio_profile_title      (* 170-178 *)
  | waveform_title           (* 246-253 *)
  | css_theme                (* 289-384 *)
  | hero_header              (* 387-414 *)
  | input_panel_title        (* 423-431 *)
  | upload_title             (* 495-503 *)
  | record_title             (* 534-542 *)
  | preview_heading          (* 512, 551 *)
  | analysis_panel_title     (* 576-584 *)
  | awaiting_input_card.     (* 594-608 *)

Inductive ui : Type :=
  | ui_page_config
  | ui_static (b : static_block)
  | ui_result (c : st_call)
  | ui_small_card (label value unit_ : string)
  | ui_caption (text : string)
  | ui_pyplot (waveform : list npfloat)
  | ui_info (text : string)
  | ui_button (key : string)
  | ui_mode_card (title_ : string) (active : bool)
  | ui_file_uploader
  | ui_audio_input
  | ui_audio_preview
  | ui_spinner (text : string).

(** [st.session_state.result]: the dictionary with [has_result] false and
    the other entries [None], or the one with [has_result] true and the
    three values of an analysis. *)
Inductive stored_result : Type :=
  | NoResult
  | StoredResult (status : Z) (message : string) (info : gmap string pyval).

(** [st.session_state]; [None] is a key that is not there yet. *)
Record session_state : Type := {
  ss_mode : option string;
  ss_result : option stored_result;
}.

(** What the widgets return in one run. *)
Record widget_inputs : Type := {
  mode_upload_btn : bool;
  mode_record_btn : bool;
  file_uploader : option UploadedFile;
  analyze_upload : bool;
  recorder : option UploadedFile;
  analyze_record : bool;
}.

Record app : Type := {
  app_session : session_state;
  app_fs : world;
  app_screen : list ui;
}.

Definition App (A : Type) : Type := app -> result A * app.

#[global] Instance App_ret : MRet App := fun A a s => (Return a, s).
#[global] Instance App_bind : MBind App := fun A B f m s =>
  match m s with
  | (Return a, s1) => f a s1
  | (Raise e, s1) => (Raise e, s1)
  end.

(** A Streamlit call that draws something. *)
Definition emit (u : ui) : App unit :=
  fun s =>
    (Return tt,
     {| app_session := app_session s; app_fs := app_fs s;
        app_screen := app_screen s ++ [u] |}).

Fixpoint emit_all (us : list ui) : App unit :=
  match us with
  | [] => mret tt
  | u :: rest => _ ← emit u; emit_all rest
  end.

(** A pure expression that may raise. *)
Definition evalR {A} (r : result A) : App A := fun s => (r, s).

(** A computation on the file system. *)
Definition on_fs {A} (m : M A) : App A :=
  fun s =>
    let '(r, w) := m (app_fs s) in
    (r, {| app_session := app_session s; app_fs := w;
           app_screen := app_screen s |}).

Definition get_session : App session_state :=
  fun s => (Return (app_session s), s).

Definition set_mode (m : string) : App unit :=
  fun s =>
    (Return tt,
     {| app_session := {| ss_mode := Some m;
                          ss_result := ss_result (app_session s) |};
        app_fs := app_fs s; app_screen := app_screen s |}).

Definition set_result (r : stored_result) : App unit :=
  fun s =>
    (Return tt,
     {| app_session := {| ss_mode := ss_mode (app_session s);
                          ss_result := Some r |};
        app_fs := app_fs s; app_screen := app_screen s |}).

(** [st.session_state.mode] and [st.session_state.result], read. *)
Definition get_mode : App string :=
  fun s =>
    match ss_mode (app_session s) with
    | Some m => (Return m, s)
    | None => (Raise (PyException "AttributeError: st.session_state has no attribute 'mode'"), s)
    end.

Definition get_result : App stored_result :=
  fun s =>
    match ss_result (app_session s) with
    | Some r => (Return r, s)
    | None => (Raise (PyException "AttributeError: st.session_state has no attribute 'result'"), s)
    end.

(** [info[k]] *)
Definition getitem (info : gmap string pyval) (k : string) : result pyval :=
  match info !! k with
  | Some v => Return v
  | None => Raise (PyException ("KeyError: '" +:+ k +:+ "'"))
  end.

(** Lines 239-242. *)
Definition characteristics_caption : string :=
  "⚠️ These are **acoustic characteristics**, not speaker identity " +:+
  "(they describe how the voice sounds, not who it is).".

Section Rendering.

Context `{fmt : Formatting}.

(** [f"{v:.2f}"]: integers and floats are formatted, an array refuses the
    format. *)
Definition format_f (digits : nat) (v : pyval) : result string :=
  match v with
  | VInt z => Return (format_fixed digits (Num (Qc_of_Z z)))
  | VFloat x => Return (format_fixed digits x)
  | VArr _ =>
      Raise (PyException
        "TypeError: unsupported format string passed to numpy.ndarray.__format__")
  end.

(** [np.isnan(v)] as the condition of a conditional expression.  An integer
    is converted to a number first, which numpy refuses for one that fits
    no 64-bit integer type.  On an array the test is element-wise, and only
    an array of one element has a truth value. *)
Definition isnan_truth (v : pyval) : result bool :=
  match v with
  | VInt z =>
      if ((- 2 ^ 63 <=? z) && (z <? 2 ^ 64))%Z then Return false
      else
        Raise (PyException
          "TypeError: ufunc 'isnan' not supported for the input types")
  | VFloat x => Return (isnan x)
  | VArr [x] => Return (isnan x)
  | VArr _ =>
      Raise (PyException "ValueError: The truth value of an array is ambiguous")
  end.

(** [{"" if np.isnan(v) else f"{v:.2f}"}] *)
Definition blank_if_nan (digits : nat) (v : pyval) : result string :=
  b ← isnan_truth v;
  if b : bool then mret EmptyString else format_f digits v.

(** [v.size]: arrays have one, Python numbers do not. *)
Definition array_size (v : pyval) : result nat :=
  match v with
  | VArr y => Return (length y)
  | VInt _ => Raise (PyException "AttributeError: 'int' object has no attribute 'size'")
  | VFloat _ => Raise (PyException "AttributeError: 'float' object has no attribute 'size'")
  end.

(** Lines 255-264. *)
Definition render_waveform (info : gmap string pyval) : App unit :=
  v ← evalR (getitem info "waveform");
  n ← evalR (array_size v);
  if (0 <? n)%nat then
    match v with
    | VArr y => emit (ui_pyplot y)
    | _ => mret tt
    end
  else
    emit (ui_info "Waveform not available for this audio.").

(** Lines 108-264. *)
Definition render_results (status : Z) (message : string)
    (info : gmap string pyval) : App unit :=
  _ ← emit (ui_static detection_result_title);
  _ ← emit_all (ui_result <$> render_result_card status message);
  _ ← emit (ui_static line_break);
  _ ← emit (ui_static audio_profile_title);
  duration ← evalR (getitem info "duration" ≫= format_f 2);
  _ ← emit (ui_small_card "Duration" duration " sec");
  sr ← evalR (v ← getitem info "sr"; mret (format_plain v));
  _ ← emit (ui_small_card "Sample Rate" sr " Hz");
  samples ← evalR (v ← getitem info "samples"; mret (format_plain v));
  _ ← emit (ui_small_card "Samples" samples EmptyString);
  avg_pitch ← evalR (getitem info "avg_pitch" ≫= blank_if_nan 2);
  _ ← emit (ui_small_card "Average Pitch" avg_pitch " Hz");
  avg_energy ← evalR (getitem info "avg_energy" ≫= blank_if_nan 5);
  _ ← emit (ui_small_card "Voice Energy" avg_energy EmptyString);
  _ ← emit (ui_caption characteristics_caption);
  _ ← emit (ui_static waveform_title);
  render_waveform info.

Context `{ext : Collaborators}.

(** Lines 505-530 and 546-569: the preview of the file a widget returned,
    the analysis button, and the analysis when the button was pressed.
    [seek(0)] rewinds the stream that [process_audio_file] then reads. *)
Definition preview_and_analyze (file : option UploadedFile)
    (button_key : string) (clicked : bool) (spinner : string) : App unit :=
  match file with
  | None => mret tt
  | Some uploaded_file =>
      _ ← emit (ui_static preview_heading);
      _ ← emit ui_audio_preview;
      _ ← emit (ui_static line_break);
      _ ← emit (ui_button button_key);
      if clicked then
        _ ← emit (ui_spinner spinner);
        '(status, message, info) ← on_fs (process_audio_file uploaded_file);
        set_result (StoredResult status message info)
      else mret tt
  end.

(** Lines 277-286: the two keys of a new session. *)
Definition init_session : App unit :=
  session ← get_session;
  _ ← (if ss_mode session is None then set_mode "upload" else mret tt);
  session ← get_session;
  if ss_result session is None then set_result NoResult else mret tt.

(** Lines 434-490: the two mode buttons, the change of mode, and the two
    mode cards, drawn for the mode as changed. *)
Definition mode_toggle (inputs : widget_inputs) : App unit :=
  _ ← emit (ui_button "mode_upload_btn");
  let upload_clicked := mode_upload_btn inputs in
  _ ← emit (ui_button "mode_record_btn");
  let record_clicked := mode_record_btn inputs in
  _ ← (if upload_clicked then set_mode "upload"
       else if record_clicked then set_mode "record"
       else mret tt);
  _ ← emit (ui_static line_break);
  mode ← get_mode;
  _ ← emit (ui_mode_card "Upload audio" (String.eqb mode "upload"));
  mode ← get_mode;
  _ ← emit (ui_mode_card "Record from mic" (String.eqb mode "record"));
  emit (ui_static line_break).

(** Lines 493-569: the controls of the mode the run is in. *)
Definition input_controls (inputs : widget_inputs) : App unit :=
  mode ← get_mode;
  if String.eqb mode "upload" then
    _ ← emit (ui_static upload_title);
    _ ← emit ui_file_uploader;
    preview_and_analyze (file_uploader inputs) "analyze_upload"
      (analyze_upload inputs) "Analyzing uploaded audio..."
  else
    _ ← emit (ui_static record_title);
    _ ← emit ui_audio_input;
    preview_and_analyze (recorder inputs) "analyze_record"
      (analyze_record inputs) "Analyzing recorded audio...".

(** Lines 573-608: the stored result, or the placeholder. *)
Definition analysis_panel : App unit :=
  _ ← emit (ui_static analysis_panel_title);
  stored ← get_result;
  match stored with
  | StoredResult status message info => render_results status message info
  | NoResult => emit (ui_static awaiting_input_card)
  end.

(** Lines 269-608: one run of the script. *)
Definition main (inputs : widget_inputs) : App unit :=
  _ ← emit ui_page_config;
  _ ← init_session;
  _ ← emit (ui_static css_theme);
  _ ← emit (ui_static hero_header);
  _ ← emit (ui_static input_panel_title);
  _ ← mode_toggle inputs;
  _ ← input_controls inputs;
  analysis_panel.

End Rendering.

(** ** Vocabulary of the statements *)

(** [needle] occurs in [hay]. *)
Definition is_substring (needle hay : string) : Prop :=
  exists pre post, hay = pre +:+ needle +:+ post.

(** The arithmetic mean of finitely many rationals. *)
Definition arith_mean (qs : list Qc) : Qc :=
  foldr Qcplus 0%Qc qs / Qc_of_nat (length qs).

(** Channel [j] of a decoded (frames, channels) array, as a signal. *)
Definition channel (j : nat) (rows : list (list npfloat)) : list npfloat :=
  map (fun frame => default NaN (frame !! j)) rows.

(** Sample [i] of every one of the [c] channels, in channel order. *)
Definition across_channels (c i : nat) (rows : list (list npfloat)) : list npfloat :=
  map (fun j => default NaN (channel j rows !! i)) (seq 0 c).

(** The value a fault-isolated metric ends with: the mean of the frames
    that are numbers when the estimator returned, not-a-number when it
    raised. *)
Definition metric_of (r : result (list npfloat)) : npfloat :=
  match r with
  | Return frames => np_nanmean frames
  | Raise _ => NaN
  end.

(** Two values agree up to a tolerance [close] on the rationals. *)
Definition np_close (close : Qc -> Qc -> Prop) (x y : npfloat) : Prop :=
  match x, y with
  | Num a, Num b => close a b
  | NaN, NaN => True
  | _, _ => False
  end.

(** The six keys of a descriptor record. *)
Definition descriptor_keys : gset string :=
  {[ "samples"; "sr"; "duration"; "avg_pitch"; "avg_energy"; "waveform" ]}.

(** The world a request's [try] block starts in: the temporary directory
    exists and the path has been printed. *)
Definition staged_path (uploaded_file : UploadedFile) (w : world) : string :=
  os_path_join (mkdtemp_name w) (name uploaded_file).

Definition world_at_try (uploaded_file : UploadedFile) (w : world) : world :=
  (print ["filepath: "; staged_path uploaded_file w] (mkdtemp w).2).2.

(** The outcome of a request whose extraction was absorbed: the classifier's
    outcome, with the default record when it returned. *)
Definition with_default_info (rc : result (Z * string))
    : result (Z * string * gmap string pyval) :=
  match rc with
  | Return (status, message) => Return (status, message, default_audio_info)
  | Raise e => Raise e
  end.

(** The three states of the result card, told apart by the card's title. *)
Inductive card_state : Type :=
  | DeepfakeVerdict
  | RealVerdict
  | InferenceFailed.

Definition state_of_call (c : st_call) : option card_state :=
  match c with
  | st_markdown k =>
      if String.eqb (title k) "❌ Deepfake Detected" then Some DeepfakeVerdict
      else if String.eqb (title k) "✅ Real Audio" then Some RealVerdict
      else if String.eqb (title k) "⚠️ Inference Failed" then Some InferenceFailed
      else None
  | st_write _ => None
  end.

(** The states shown by a sequence of Streamlit calls. *)
Definition rendered_states (calls : list st_call) : list card_state :=
  omap state_of_call calls.

(** *** Vocabulary for the screen and the session *)

(** The state after more calls were drawn. *)
Definition draw (us : list ui) (s : app) : app :=
  {| app_session := app_session s; app_fs := app_fs s;
     app_screen := app_screen s ++ us |}.

(** The small cards on a screen, as (label, value) pairs, in order. *)
Definition small_cards (us : list ui) : list (string * string) :=
  omap (fun u => match u with
                 | ui_small_card label value _ => Some (label, value)
                 | _ => None
                 end) us.

(** The result-card calls on a screen, in order. *)
Definition result_calls (us : list ui) : list st_call :=
  omap (fun u => match u with ui_result c => Some c | _ => None end) us.

(** The waveforms plotted on a screen. *)
Definition plotted (us : list ui) : list (list npfloat) :=
  omap (fun u => match u with ui_pyplot y => Some y | _ => None end) us.

(** What [render_results] draws for a record of the pipeline. *)
Definition rendering `{fmt : Formatting} (status : Z) (message : string) (samples sr : Z)
    (duration avg_pitch avg_energy : npfloat) (waveform : list npfloat)
    : list ui :=
  [ui_static detection_result_title] ++
  (ui_result <$> render_result_card status message) ++
  [ui_static line_break;
   ui_static audio_profile_title;
   ui_small_card "Duration" (format_fixed 2 duration) " sec";
   ui_small_card "Sample Rate" (format_plain (VInt sr)) " Hz";
   ui_small_card "Samples" (format_plain (VInt samples)) EmptyString;
   ui_small_card "Average Pitch"
     (if isnan avg_pitch then EmptyString else format_fixed 2 avg_pitch) " Hz";
   ui_small_card "Voice Energy"
     (if isnan avg_energy then EmptyString else format_fixed 5 avg_energy)
     EmptyString;
   ui_caption characteristics_caption;
   ui_static waveform_title;
   match waveform with
   | [] => ui_info "Waveform not available for this audio."
   | _ :: _ => ui_pyplot waveform
   end].

(** The mode a run switches to: the upload button first, then the record
    button, otherwise the mode the session had, "upload" for a new one. *)
Definition next_mode (inputs : widget_inputs) (old : option string) : string :=
  if mode_upload_btn inputs then "upload"
  else if mode_record_btn inputs then "record"
  else default "upload" old.

(** The file a run analyses, if any: the one of the panel of the mode the
    run is in, when that panel's button was pressed. *)
Definition requested (inputs : widget_inputs) (mode : string)
    : option UploadedFile :=
  if String.eqb mode "upload" then
    (if analyze_upload inputs then file_uploader inputs else None)
  else
    (if analyze_record inputs then recorder inputs else None).

(** What a run draws before the input controls, in a run that is in [mode]. *)
Definition prologue_events (mode : string) : list ui :=
  [ui_page_config; ui_static css_theme; ui_static hero_header;
   ui_static input_panel_title;
   ui_button "mode_upload_btn"; ui_button "mode_record_btn";
   ui_static line_break;
   ui_mode_card "Upload audio" (String.eqb mode "upload");
   ui_mode_card "Record from mic" (String.eqb mode "record");
   ui_static line_break].

(** What the input controls draw up to the analysis. *)
Definition preview_events (file : option UploadedFile) (button_key : string)
    (clicked : bool) (spinner : string) : list ui :=
  match file with
  | None => []
  | Some _ =>
      [ui_static preview_heading; ui_audio_preview; ui_static line_break;
       ui_button button_key] ++
      (if clicked then [ui_spinner spinner] else [])
  end.

Definition controls_events (inputs : widget_inputs) (mode : string) : list ui :=
  if String.eqb mode "upload" then
    [ui_static upload_title; ui_file_uploader] ++
    preview_events (file_uploader inputs) "analyze_upload"
      (analyze_upload inputs) "Analyzing uploaded audio..."
  else
    [ui_static record_title; ui_audio_input] ++
    preview_events (recorder inputs) "analyze_record"
      (analyze_record inputs) "Analyzing recorded audio...".

(** The state of a run when it reaches the input controls. *)
Definition at_controls (inputs : widget_inputs) (s : app) : app :=
  let mode := next_mode inputs (ss_mode (app_session s)) in
  {| app_session :=
       {| ss_mode := Some mode;
          ss_result := Some (default NoResult (ss_result (app_session s))) |};
     app_fs := app_fs s;
     app_screen := app_screen s ++ prologue_events mode |}.

(** A state with another stored result and file system. *)
Definition with_result (r : stored_result) (w : world) (s : app) : app :=
  {| app_session := {| ss_mode := ss_mode (app_session s); ss_result := Some r |};
     app_fs := w; app_screen := app_screen s |}.

Definition with_fs (w : world) (s : app) : app :=
  {| app_session := app_session s; app_fs := w; app_screen := app_screen s |}.

(** The state a run ends in: its mode, the stored result, the file system
    and the screen. *)
Definition final (mode : string) (r : stored_result) (w : world)
    (scr : list ui) : app :=
  {| app_session := {| ss_mode := Some mode; ss_result := Some r |};
     app_fs := w; app_screen := scr |}.

(** What a run has drawn when it reaches the analysis panel. *)
Definition before_panel (inputs : widget_inputs) (s : app) : list ui :=
  let mode := next_mode inputs (ss_mode (app_session s)) in
  prologue_events mode ++ controls_events inputs mode.

(** A record as the pipeline builds them. *)
Definition pipeline_record (info : gmap string pyval) : Prop :=
  exists samples sr duration avg_pitch avg_energy waveform,
    info = audio_info_dict samples sr duration avg_pitch avg_energy waveform.

(** A session as runs of [main] leave it. *)
Definition session_ok (s : session_state) : Prop :=
  (ss_mode s = None \/ ss_mode s = Some "upload" \/ ss_mode s = Some "record") /\
  match ss_result s with
  | Some (StoredResult _ _ info) => pipeline_record info
  | _ => True
  end.

(** A session after at least one run: both keys are set. *)
Definition session_set (s : session_state) : Prop :=
  (ss_mode s = Some "upload" \/ ss_mode s = Some "record") /\
  exists r,
    ss_result s = Some r /\
    match r with
    | StoredResult _ _ info => pipeline_record info
    | NoResult => True
    end.

(** A display name that is one path component: no slash in it, not empty,
    and neither of the two names that stand for a directory. *)
Definition plain_file_name (s : string) : bool :=
  (negb (str_contains "/" s) && negb (String.eqb s EmptyString) &&
   negb (String.eqb s ".") && negb (String.eqb s ".."))%bool.

(** A session of the browser: a run of [main] for every interaction, each
    starting from the session state and the file system the one before left
    (also when it ended with an exception), on a cleared screen.  The
    outcomes of the runs are collected. *)
Fixpoint runs `{ext : Collaborators} `{fmt : Formatting}
    (interactions : list widget_inputs) (s : app) : list (result unit) * app :=
  match interactions with
  | [] => ([], s)
  | inputs :: rest =>
      let '(r, s1) :=
        main inputs {| app_session := app_session s; app_fs := app_fs s;
                       app_screen := [] |} in
      let '(rs, s2) := runs rest s1 in
      (r :: rs, s2)
  end.

(** The runs of such a session, each as the inputs it got and the state it
    started from. *)
Fixpoint run_trace `{ext : Collaborators} `{fmt : Formatting}
    (interactions : list widget_inputs) (s : app)
    : list (widget_inputs * app) :=
  match interactions with
  | [] => []
  | inputs :: rest =>
      let s0 := {| app_session := app_session s; app_fs := app_fs s;
                   app_screen := [] |} in
      (inputs, s0) :: run_trace rest (main inputs s0).2
  end.

(** ** A concrete setting

    One choice of collaborators, small enough to run, on which the
    statements below are exercised. *)
Module Demo.

(** Rounding to the nearest multiple of 2^-24, and the tolerance it keeps. *)
Definition round24 (q : Qc) : Qc :=
  Q2Qc (Qfloor (q * (16777216 # 1) + (1 # 2)) # 16777216).

Definition close24 (a b : Qc) : Prop :=
  (Qcabs (a - b) <= Q2Qc (1 # 33554432))%Qc.

Definition half : Qc := Q2Qc (1 # 2).
Definition quarter : Qc := Q2Qc (1 # 4).

(** Three samples, one channel, 16 kHz. *)
Definition mono16k : ndarray * Z :=
  (Arr1 [Num half; Num (- quarter)%Qc; Num 0%Qc], 16000%Z).

(** Two frames, two channels, 8 kHz. *)
Definition stereo8k : ndarray * Z :=
  (Arr2 [[Num 1%Qc; Num 0%Qc]; [Num half; Num quarter]], 8000%Z).

(** A decoder that knows two files by their contents and rejects the rest. *)
Definition decode (filepath : string) (w : world) : result (ndarray * Z) :=
  match files w !! filepath with
  | None => Raise (PyException "LibsndfileError: System error.")
  | Some data =>
      if String.eqb data "RIFFmono16k" then Return mono16k
      else if String.eqb data "RIFFstereo8k" then Return stereo8k
      else Raise (PyException "LibsndfileError: Format not recognised.")
  end.

(** A resampler by sample repetition; it refuses the empty signal. *)
Definition resample (y : list npfloat) (orig_sr target_sr : Z)
    : result (list npfloat) :=
  match y with
  | [] => Raise (PyException "ValueError: Input signal length=0 is too small")
  | _ => Return (mjoin (replicate (Z.to_nat (target_sr / orig_sr)) <$> y))
  end.

(** A pitch estimator that needs four samples. *)
Definition yin (y : list npfloat) (fmin fmax : Z) : result (list npfloat) :=
  if (length y <? 4)%nat then Raise (PyException "ParameterError: signal too short")
  else Return [Num (Qc_of_Z 100); NaN; Num (Qc_of_Z 120)].

Definition rms (y : list npfloat) : result (list npfloat) :=
  Return [Num quarter; Num half].

(** A classifier that reads RIFF and ID3 files. *)
Definition classify (filepath : string) : M (Z * string) :=
  fun w =>
    match files w !! filepath with
    | None => (Raise (PyException "FileNotFoundError"), w)
    | Some data =>
        if String.prefix "RIFF" data then (Return (1%Z, "Real voice detected"), w)
        else if String.prefix "ID3" data then (Return (1%Z, "Fake voice detected"), w)
        else (Return (0%Z, "Could not load audio"), w)
    end.

Definition write_file (filepath data : string) : M unit :=
  fun w =>
    (Return tt,
     {| dirs := dirs w; files := <[filepath := data]> (files w);
        stdout := stdout w |}).

Definition collaborators : Collaborators := {|
  float32 := round24;
  sf_read := decode;
  librosa_resample := resample;
  librosa_yin := yin;
  librosa_rms := rms;
  infa_deepfake := classify;
  open_wb_write := write_file;
|}.

Definition upload (filename data : string) : UploadedFile :=
  {| name := filename; read := fun w => (Return data, w) |}.

Definition clip_wav : UploadedFile := upload "clip.wav" "RIFFmono16k".
Definition stereo_wav : UploadedFile := upload "stereo.wav" "RIFFstereo8k".
Definition clip_mp3 : UploadedFile := upload "clip.mp3" "ID3 fake voice".
Definition notes_txt : UploadedFile := upload "notes.txt" "shopping list".

Definition empty_world : world := World ∅ ∅ [].

(** The world in which a request on [uploaded_file] reaches line 87: after
    the directory was made, the path printed and the upload staged. *)
Definition staged_world (uploaded_file : UploadedFile) : world :=
  let w0 := world_at_try uploaded_file empty_world in
  match read uploaded_file w0 with
  | (Return data, w1) =>
      (write_file (staged_path uploaded_file empty_world) data w1).2
  | (Raise _, w1) => w1
  end.

(** The record expected for [clip_wav]. *)
Definition clip_info : gmap string pyval :=
  audio_info_dict 3 16000 (Num (Qc_of_nat 3 / Qc_of_Z 16000)) NaN
    (np_nanmean [Num quarter; Num half])
    (map (fun x => match x with Num q => Num (round24 q) | NaN => NaN end)
       (to_mono mono16k.1)).

(** A whole request, started in the empty world. *)
Definition run (uploaded_file : UploadedFile)
    : result (Z * string * gmap string pyval) * world :=
  process_audio_file (ext := collaborators) uploaded_file empty_world.

End Demo.

(** ** A concrete setting for the script *)


Module DemoApp.

Import Demo.

(** An upload whose stream cannot be read. *)
Definition broken_upload : UploadedFile :=
  {| name := "clip.wav";
     read := fun w =>
       (Raise (PyException "ValueError: I/O operation on closed file."), w) |}.

(** The collaborators of [Demo], with a pitch estimator that is interrupted
    from the keyboard. *)
Definition interrupted : Collaborators := {|
  float32 := round24;
  sf_read := decode;
  librosa_resample := resample;
  librosa_yin := fun _ _ _ => Raise (PyBaseException "KeyboardInterrupt");
  librosa_rms := rms;
  infa_deepfake := classify;
  open_wb_write := write_file;
|}.

(** An upload whose display name is an absolute path. *)
Definition absolute_upload : UploadedFile :=
  upload "/srv/clip.wav" "RIFFmono16k".

(** Decimal notation of a natural number and of an integer. *)
Fixpoint show_nat_from (fuel n : nat) (acc : string) : string :=
  match fuel with
  | O => acc
  | S fuel' =>
      let acc' := String (ascii_of_nat (48 + n mod 10)) acc in
      if (n / 10 =? 0)%nat then acc' else show_nat_from fuel' (n / 10) acc'
  end.

Definition show_nat (n : nat) : string := show_nat_from (S n) n EmptyString.

Definition show_Z (z : Z) : string :=
  if (z <? 0)%Z then "-" +:+ show_nat (Z.to_nat (- z))
  else show_nat (Z.to_nat z).

(** Rounding to the nearest integer, ties to even. *)
Definition round_half_even (q : Q) : Z :=
  let f := Qfloor q in
  match (q - inject_Z f) ?= (1 # 2) with
  | Lt => f
  | Gt => (f + 1)%Z
  | Eq => if Z.even f then f else (f + 1)%Z
  end%Q.

(** Fixed-point notation with [digits] decimals. *)
Definition fixed (digits : nat) (x : npfloat) : string :=
  match x with
  | NaN => "nan"
  | Num q =>
      let scale := (10 ^ Z.of_nat digits)%Z in
      let n := round_half_even (Qabs.Qabs q * inject_Z scale) in
      let frac := show_Z (n mod scale) in
      (if Qlt_le_dec q 0 then "-" else EmptyString) +:+
      show_Z (n / scale) +:+ "." +:+
      String.concat EmptyString (replicate (digits - String.length frac) "0") +:+
      frac
  end.

Definition plain (v : pyval) : string :=
  match v with
  | VInt z => show_Z z
  | VFloat x => fixed 1 x
  | VArr y => "array of " +:+ show_nat (length y)
  end.

Definition formatting : Formatting :=
  {| format_fixed := fixed; format_plain := plain |}.

(** A browser session that has not run the script yet. *)
Definition new_session : app :=
  {| app_session := {| ss_mode := None; ss_result := None |};
     app_fs := empty_world; app_screen := [] |}.

(** Nothing pressed, nothing chosen. *)
Definition idle : widget_inputs :=
  {| mode_upload_btn := false; mode_record_btn := false;
     file_uploader := None; analyze_upload := false;
     recorder := None; analyze_record := false |}.

(** A file chosen in the upload panel and the analysis button pressed. *)
Definition analyze (uploaded_file : UploadedFile) : widget_inputs :=
  {| mode_upload_btn := false; mode_record_btn := false;
     file_uploader := Some uploaded_file; analyze_upload := true;
     recorder := None; analyze_record := false |}.

(** The record button pressed. *)
Definition switch_to_record : widget_inputs :=
  {| mode_upload_btn := false; mode_record_btn := true;
     file_uploader := None; analyze_upload := false;
     recorder := None; analyze_record := false |}.

(** As [idle], with a recording waiting in the panel that is not shown. *)
Definition idle_with_recording : widget_inputs :=
  {| mode_upload_btn := false; mode_record_btn := false;
     file_uploader := None; analyze_upload := false;
     recorder := Some clip_wav; analyze_record := true |}.

(** One run of the script in the concrete setting. *)
Definition script (inputs : widget_inputs) (s : app) : result unit * app :=
  main (fmt := formatting) (ext := collaborators) inputs s.

End DemoApp.

(** ** A pitch estimator that pads *)

Module DemoPad.

Import Demo.

(** The pitch that [librosa.yin] reports on a clip much shorter than its
    window. *)
Definition padded_pitch : Qc := Q2Qc (30205 # 100).

(** [librosa.yin] as it treats short input with its defaults (window 2048,
    hop 512, centred): the signal is padded by half a window on both sides,
    so every signal, also the empty one and one shorter than the window,
    gets [1 + len(y) // 512] estimates and nothing is raised. *)
Definition padding_yin (y : list npfloat) (fmin fmax : Z)
    : result (list npfloat) :=
  Return (replicate (1 + length y / 512) (Num padded_pitch)).

(** The collaborators of [Demo], with the padding pitch estimator. *)
Definition padded : Collaborators := {|
  float32 := round24;
  sf_read := decode;
  librosa_resample := resample;
  librosa_yin := padding_yin;
  librosa_rms := rms;
  infa_deepfake := classify;
  open_wb_write := write_file;
|}.

(** The record expected for [clip_wav] with the padding estimator. *)
Definition padded_clip_info : gmap string pyval :=
  audio_info_dict 3 16000 (Num (Qc_of_nat 3 / Qc_of_Z 16000))
    (np_nanmean [Num padded_pitch])
    (np_nanmean [Num quarter; Num half])
    (map (fun x => match x with Num q => Num (round24 q) | NaN => NaN end)
       (to_mono mono16k.1)).

End DemoPad.

(** ** Facts *)

Section Facts.

Context `{ext : Collaborators}.

Lemma M_bind_run {A B} (m : M A) (f : A -> M B) (w : world) :
  (m ≫= f) w =
  match m w with
  | (Return a, w1) => f a w1
  | (Raise e, w1) => (Raise e, w1)
  end.
Proof. reflexivity. Qed.

Lemma M_ret_run {A} (a : A) (w : world) : (mret a : M A) w = (Return a, w).
Proof. reflexivity. Qed.

Lemma print_run (args : list string) (w : world) :
  print args w = (Return tt, (print args w).2).
Proof. reflexivity. Qed.

Lemma in_tree_refl (d : string) : in_tree d d = true.
Proof. unfold in_tree. by rewrite String.eqb_refl. Qed.

Lemma shutil_rmtree_returns (d : string) (w : world) :
  (shutil_rmtree d w).1 = Return tt.
Proof. reflexivity. Qed.

Lemma shutil_rmtree_removes (d p : string) (w : world) :
  in_tree d p = true ->
  (p ∉ dirs (shutil_rmtree d w).2) /\ files (shutil_rmtree d w).2 !! p = None.
Proof.
  intros Hin. simpl. split.
  - rewrite elem_of_filter. intros [Hout _]. congruence.
  - apply map_lookup_filter_None. right. intros x _ Hout. simpl in Hout. congruence.
Qed.

Lemma mkdtemp_fresh (w : world) :
  (mkdtemp_name w ∉ dirs w) /\ files w !! mkdtemp_name w = None.
Proof.
  pose proof (is_fresh (dirs w ∪ dom (files w))) as Hf.
  fold (mkdtemp_name w) in Hf. split.
  - set_solver.
  - apply not_elem_of_dom. set_solver.
Qed.

Lemma process_audio_file_run (uploaded_file : UploadedFile) (w : world) :
  process_audio_file uploaded_file w =
  try_finally (process_body uploaded_file (staged_path uploaded_file w))
    (shutil_rmtree (mkdtemp_name w)) (world_at_try uploaded_file w).
Proof. reflexivity. Qed.

(** C1.  Whatever the staging write, the extraction and the classifier do
    (return or raise, any exception class), the temporary directory that
    [process_audio_file] created for the request, a directory that did not
    exist before, is gone from the world the call leaves behind, together
    with everything below it, whether the call returns or propagates an
    exception. *)
Theorem process_audio_file_releases_temp_dir
    (uploaded_file : UploadedFile) (w : world) :
  let d := mkdtemp_name w in
  let w' := (process_audio_file uploaded_file w).2 in
  (d ∉ dirs w) /\ (d ∈ dirs (mkdtemp w).2) /\
  (d ∉ dirs w') /\
  forall p, in_tree d p = true -> (p ∉ dirs w') /\ files w' !! p = None.
Proof.
  intros d w'. split; [apply mkdtemp_fresh|]. split; [simpl; set_solver|].
  assert (Hw' : exists w1, w' = (shutil_rmtree d w1).2).
  { subst w'. rewrite process_audio_file_run. unfold try_finally.
    destruct (process_body _ _ _) as [r w1]. exists w1.
    fold d. by destruct (shutil_rmtree d w1) as [[[]|e] w2] eqn:E. }
  destruct Hw' as [w1 ->]. split.
  - apply shutil_rmtree_removes, in_tree_refl.
  - intros p Hp. by apply shutil_rmtree_removes.
Qed.

(** *** The descriptor dictionary *)

Lemma audio_info_dict_lookup (samples sr : Z) (duration avg_pitch avg_energy : npfloat)
    (waveform : list npfloat) :
  let info := audio_info_dict samples sr duration avg_pitch avg_energy waveform in
  info !! "samples" = Some (VInt samples) /\
  info !! "sr" = Some (VInt sr) /\
  info !! "duration" = Some (VFloat duration) /\
  info !! "avg_pitch" = Some (VFloat avg_pitch) /\
  info !! "avg_energy" = Some (VFloat avg_energy) /\
  info !! "waveform" = Some (VArr waveform).
Proof. unfold audio_info_dict. repeat split; by simplify_map_eq. Qed.

Lemma audio_info_dict_dom (samples sr : Z) (duration avg_pitch avg_energy : npfloat)
    (waveform : list npfloat) :
  dom (audio_info_dict samples sr duration avg_pitch avg_energy waveform)
  = descriptor_keys.
Proof.
  unfold audio_info_dict, descriptor_keys.
  rewrite !dom_insert_L, dom_empty_L. set_solver.
Qed.

(** *** The extractor *)

Lemma isolated_metric_run (r : result (list npfloat)) (w : world) :
  catchable r ->
  try_except_Exception (frames ← liftR r; mret (np_nanmean frames))
    (fun _ => mret NaN) w = (Return (metric_of r), w).
Proof.
  intros Hc. unfold try_except_Exception. rewrite M_bind_run. unfold liftR.
  destruct r as [frames|e]; simpl in *; [done|]. by rewrite Hc.
Qed.

Lemma isolated_metric_world (r : result (list npfloat)) (w : world) :
  (try_except_Exception (frames ← liftR r; mret (np_nanmean frames))
     (fun _ => mret NaN) w).2 = w.
Proof.
  unfold try_except_Exception. rewrite M_bind_run. unfold liftR.
  destruct r as [frames|e]; simpl; [done|]. by destruct (is_Exception e).
Qed.

Lemma get_duration_target (y : list npfloat) :
  get_duration y target_sr
  = Return (Num (Qc_of_nat (length y) / Qc_of_Z 16000)).
Proof. reflexivity. Qed.

Lemma describe_run (y : list npfloat) (w : world) :
  catchable (librosa_yin y 50 300) ->
  catchable (librosa_rms y) ->
  describe y target_sr w =
  (Return (audio_info_dict (Z.of_nat (length y)) 16000
             (Num (Qc_of_nat (length y) / Qc_of_Z 16000))
             (metric_of (librosa_yin y 50 300))
             (metric_of (librosa_rms y)) y), w).
Proof.
  intros Hp He. unfold describe.
  rewrite M_bind_run, get_duration_target. unfold liftR at 1. cbv beta iota.
  rewrite M_bind_run, (isolated_metric_run _ _ Hp).
  rewrite M_bind_run, (isolated_metric_run _ _ He).
  reflexivity.
Qed.

Lemma describe_shape (y : list npfloat) (sr : Z) (w w' : world)
    (info : gmap string pyval) :
  describe y sr w = (Return info, w') ->
  w' = w /\
  exists duration avg_pitch avg_energy,
    info = audio_info_dict (Z.of_nat (length y)) sr duration avg_pitch avg_energy y.
Proof.
  unfold describe. rewrite M_bind_run. unfold liftR at 1.
  destruct (get_duration y sr) as [duration|e]; [|discriminate].
  rewrite M_bind_run.
  pose proof (isolated_metric_world (librosa_yin y 50 300) w) as Hw1.
  destruct (try_except_Exception _ _ w) as [[avg_pitch|e] w1]; [|discriminate].
  simpl in Hw1. subst w1. rewrite M_bind_run.
  pose proof (isolated_metric_world (librosa_rms y) w) as Hw2.
  destruct (try_except_Exception _ _ w) as [[avg_energy|e] w2]; [|discriminate].
  simpl in Hw2. subst w2. intros [= <- <-]. eauto.
Qed.

Lemma normalize_decoded_sr (d : ndarray * Z) (y : list npfloat) (sr : Z) :
  normalize_decoded d = Return (y, sr) -> sr = target_sr.
Proof.
  destruct d as [arr sr0]. unfold normalize_decoded.
  destruct (sr0 =? target_sr)%Z eqn:E; simpl.
  - intros [= _ <-]. by apply Z.eqb_eq.
  - destruct (librosa_resample _ _ _); simpl; [|discriminate]. by intros [= _ <-].
Qed.

Lemma extract_audio_metadata_run (filepath : string) (w : world) :
  extract_audio_metadata filepath w =
  match sf_read filepath w with
  | Return d =>
      match normalize_decoded d with
      | Return (y, sr) => describe y sr w
      | Raise e => (Raise e, w)
      end
  | Raise e => (Raise e, w)
  end.
Proof.
  unfold extract_audio_metadata. rewrite M_bind_run. unfold readW.
  destruct (sf_read filepath w) as [d|e]; [|done].
  rewrite M_bind_run. unfold liftR.
  by destruct (normalize_decoded d) as [[y sr]|e].
Qed.

Lemma extract_audio_metadata_shape (filepath : string) (w w' : world)
    (info : gmap string pyval) :
  extract_audio_metadata filepath w = (Return info, w') ->
  w' = w /\
  exists y duration avg_pitch avg_energy,
    info = audio_info_dict (Z.of_nat (length y)) 16000 duration avg_pitch avg_energy y.
Proof.
  rewrite extract_audio_metadata_run.
  destruct (sf_read filepath w) as [d|e]; [|discriminate].
  destruct (normalize_decoded d) as [[y sr]|e] eqn:En; [|discriminate].
  apply normalize_decoded_sr in En. subst sr. intros Hd.
  apply describe_shape in Hd as (-> & duration & avg_pitch & avg_energy & ->).
  eauto 10.
Qed.

Lemma extract_audio_metadata_world (filepath : string) (w : world) :
  (extract_audio_metadata filepath w).2 = w.
Proof.
  rewrite extract_audio_metadata_run.
  destruct (sf_read filepath w) as [d|e]; [|done].
  destruct (normalize_decoded d) as [[y sr]|e]; [|done].
  destruct (describe y sr w) as [[info|e] w'] eqn:Hd.
  - by apply describe_shape in Hd as [-> _].
  - revert Hd. unfold describe. rewrite M_bind_run. unfold liftR at 1.
    destruct (get_duration y sr) as [duration|e1]; [|by intros [= _ <-]].
    rewrite M_bind_run.
    pose proof (isolated_metric_world (librosa_yin y 50 300) w) as Hw1.
    destruct (try_except_Exception _ _ w) as [[avg_pitch|e1] w1];
      simpl in Hw1; subst w1; [|by intros [= _ <-]].
    rewrite M_bind_run.
    pose proof (isolated_metric_world (librosa_rms y) w) as Hw2.
    destruct (try_except_Exception _ _ w) as [[avg_energy|e1] w2];
      simpl in Hw2; subst w2; [discriminate|by intros [= _ <-]].
Qed.

(** C3.  On every canonical signal [y] (any length, the empty signal and
    silence included) the descriptor extractor (lines 40-62) returns, in an
    unchanged world, a record with exactly the six keys.  The sample count,
    rate, duration and waveform are computed from [y]; the pitch and the
    energy are each the mean of the frames their own estimator returned, or
    not-a-number when that estimator raised, independently of the other
    one.  An estimator's failure is an exception that [except Exception]
    catches. *)
Theorem describe_total_and_isolated (y : list npfloat) (w : world) :
  catchable (librosa_yin y 50 300) ->
  catchable (librosa_rms y) ->
  exists info,
    describe y target_sr w = (Return info, w) /\
    dom info = descriptor_keys /\
    info !! "samples" = Some (VInt (Z.of_nat (length y))) /\
    info !! "sr" = Some (VInt 16000) /\
    info !! "duration" = Some (VFloat (Num (Qc_of_nat (length y) / Qc_of_Z 16000))) /\
    info !! "avg_pitch" = Some (VFloat (metric_of (librosa_yin y 50 300))) /\
    info !! "avg_energy" = Some (VFloat (metric_of (librosa_rms y))) /\
    info !! "waveform" = Some (VArr y).
Proof.
  intros Hp He. eexists. split; [by apply describe_run|].
  split; [apply audio_info_dict_dom|]. apply audio_info_dict_lookup.
Qed.

(** C4.  Once [sf.read] has decoded the file, whatever its native rate
    [sr0]: a signal that normalisation returns has rate 16000; a record that
    [extract_audio_metadata] returns has [sr] 16000; and the record is
    returned whenever the resampler (called only for [sr0] other than 16000)
    returns and the two estimators return or fail with a catchable
    exception. *)
Theorem extract_audio_metadata_sr_16000
    (filepath : string) (w : world) (arr : ndarray) (sr0 : Z) :
  sf_read filepath w = Return (arr, sr0) ->
  (forall y sr, normalize_decoded (arr, sr0) = Return (y, sr) -> sr = 16000%Z) /\
  (forall info w',
     extract_audio_metadata filepath w = (Return info, w') ->
     info !! "sr" = Some (VInt 16000)) /\
  (forall y,
     (if (sr0 =? 16000)%Z then y = np_array_float32 (to_mono arr)
      else librosa_resample (np_array_float32 (to_mono arr)) sr0 16000 = Return y) ->
     catchable (librosa_yin y 50 300) ->
     catchable (librosa_rms y) ->
     normalize_decoded (arr, sr0) = Return (y, 16000%Z) /\
     exists info,
       extract_audio_metadata filepath w = (Return info, w) /\
       info !! "sr" = Some (VInt 16000) /\
       info !! "waveform" = Some (VArr y)).
Proof.
  intros Hread. split; [|split].
  - intros y sr Hn. by apply normalize_decoded_sr in Hn.
  - intros info w' Hx.
    apply extract_audio_metadata_shape in Hx as (_ & y & d & p & e & ->).
    apply audio_info_dict_lookup.
  - intros y Hy Hp He.
    assert (Hn : normalize_decoded (arr, sr0) = Return (y, 16000%Z)).
    { unfold normalize_decoded, target_sr.
      destruct (sr0 =? 16000)%Z eqn:E; simpl.
      - apply Z.eqb_eq in E. by subst.
      - by rewrite Hy. }
    split; [done|]. eexists. split.
    + rewrite extract_audio_metadata_run, Hread, Hn. by apply describe_run.
    + split; apply audio_info_dict_lookup.
Qed.

(** *** The orchestrator *)

Lemma try_finally_rmtree {A} (body : M A) (d : string) (w : world) :
  try_finally body (shutil_rmtree d) w
  = ((body w).1, (shutil_rmtree d (body w).2).2).
Proof. unfold try_finally. by destruct (body w) as [r w1]. Qed.

Lemma process_body_extraction_fails
    (uploaded_file : UploadedFile) (path data : string) (u : unit)
    (w0 w1 w2 w3 : world) (e : exn) (rc : result (Z * string)) :
  read uploaded_file w0 = (Return data, w1) ->
  open_wb_write path data w1 = (Return u, w2) ->
  (extract_audio_metadata path w2).1 = Raise e ->
  is_Exception e = true ->
  infa_deepfake path (print ["Metadata extraction failed:"; exn_str e] w2).2
    = (rc, w3) ->
  process_body uploaded_file path w0 = (with_default_info rc, w3).
Proof.
  intros Hread Hwrite Hx Hexc Hc. unfold process_body.
  rewrite M_bind_run, Hread. rewrite M_bind_run, Hwrite.
  rewrite M_bind_run. unfold try_except_Exception.
  pose proof (extract_audio_metadata_world path w2) as Hw.
  destruct (extract_audio_metadata path w2) as [r wx]. simpl in Hx, Hw.
  subst r wx. rewrite Hexc.
  rewrite M_bind_run, print_run, M_ret_run.
  rewrite M_bind_run, Hc.
  by destruct rc as [[status message]|e'].
Qed.

Lemma process_body_info
    (uploaded_file : UploadedFile) (path : string) (w w' : world)
    (status : Z) (message : string) (info : gmap string pyval) :
  process_body uploaded_file path w = (Return (status, message, info), w') ->
  exists samples sr duration avg_pitch avg_energy,
    info = audio_info_dict (Z.of_nat (length samples)) sr duration
             avg_pitch avg_energy samples.
Proof.
  unfold process_body. rewrite M_bind_run.
  destruct (read uploaded_file w) as [[data|e] w1]; [|discriminate].
  rewrite M_bind_run.
  destruct (open_wb_write path data w1) as [[u|e] w2]; [|discriminate].
  rewrite M_bind_run. unfold try_except_Exception.
  destruct (extract_audio_metadata path w2) as [[info0|e] wx] eqn:Hx.
  - apply extract_audio_metadata_shape in Hx as (-> & y & d & p & en & ->).
    rewrite M_bind_run.
    destruct (infa_deepfake path w2) as [[[s m]|e] w3]; [|discriminate].
    intros [= _ _ <- _]. eauto 10.
  - destruct (is_Exception e); [|discriminate].
    rewrite M_bind_run, print_run, M_ret_run. rewrite M_bind_run.
    match goal with |- context [infa_deepfake path ?wp] =>
      destruct (infa_deepfake path wp) as [[[s m]|e'] w3] end; [|discriminate].
    intros [= _ _ <- _]. by exists [], 0%Z, (Num 0), NaN, NaN.
Qed.

(** C2.  When the upload was read and staged, and extraction then fails with
    an exception that [except Exception] catches (undecodable bytes, for
    one), the classifier is still called on the staged path, and
    [process_audio_file] ends as the classifier does: with the classifier's
    status and message and the fully defaulted record (samples 0, rate 0,
    duration 0, pitch and energy not-a-number, empty waveform) when it
    returns, with its exception when it raises. *)
Theorem extraction_failure_does_not_block_classifier
    (uploaded_file : UploadedFile) (w w1 w2 w3 : world)
    (data : string) (u : unit) (e : exn) (rc : result (Z * string)) :
  let path := staged_path uploaded_file w in
  read uploaded_file (world_at_try uploaded_file w) = (Return data, w1) ->
  open_wb_write path data w1 = (Return u, w2) ->
  (extract_audio_metadata path w2).1 = Raise e ->
  is_Exception e = true ->
  infa_deepfake path (print ["Metadata extraction failed:"; exn_str e] w2).2
    = (rc, w3) ->
  (process_audio_file uploaded_file w).1 =
    match rc with
    | Return (status, message) => Return (status, message, default_audio_info)
    | Raise e' => Raise e'
    end /\
  default_audio_info !! "samples" = Some (VInt 0) /\
  default_audio_info !! "sr" = Some (VInt 0) /\
  default_audio_info !! "duration" = Some (VFloat (Num 0)) /\
  default_audio_info !! "avg_pitch" = Some (VFloat NaN) /\
  default_audio_info !! "avg_energy" = Some (VFloat NaN) /\
  default_audio_info !! "waveform" = Some (VArr []).
Proof.
  intros path Hread Hwrite Hx Hexc Hc. split.
  - rewrite process_audio_file_run, try_finally_rmtree.
    fold path.
    by rewrite (process_body_extraction_fails _ _ _ _ _ _ _ _ _ _
                  Hread Hwrite Hx Hexc Hc).
  - apply audio_info_dict_lookup.
Qed.

(** C9, as the code has it.  A decode failure is fatal to the descriptor
    computation only.  When [sf.read] raises on the staged file with an
    exception that [except Exception] catches, [extract_audio_metadata]
    raises that exception, [process_audio_file] absorbs it (printing it),
    and the request ends as the classifier does on the staged path: with a
    result carrying the default record when the classifier returns. *)
Theorem decode_failure_is_absorbed
    (uploaded_file : UploadedFile) (w w1 w2 w3 : world)
    (data : string) (u : unit) (e : exn) (rc : result (Z * string)) :
  let path := staged_path uploaded_file w in
  read uploaded_file (world_at_try uploaded_file w) = (Return data, w1) ->
  open_wb_write path data w1 = (Return u, w2) ->
  sf_read path w2 = Raise e ->
  is_Exception e = true ->
  infa_deepfake path (print ["Metadata extraction failed:"; exn_str e] w2).2
    = (rc, w3) ->
  extract_audio_metadata path w2 = (Raise e, w2) /\
  (process_audio_file uploaded_file w).1 = with_default_info rc /\
  stdout (process_audio_file uploaded_file w).2 = stdout w3 /\
  In ("Metadata extraction failed: " +:+ exn_str e)
     (stdout (print ["Metadata extraction failed:"; exn_str e] w2).2).
Proof.
  intros path Hread Hwrite Hsf Hexc Hc.
  assert (Hx : extract_audio_metadata path w2 = (Raise e, w2))
    by (by rewrite extract_audio_metadata_run, Hsf).
  split; [done|].
  rewrite process_audio_file_run, try_finally_rmtree. fold path.
  rewrite (process_body_extraction_fails _ _ _ _ _ _ _ _ _ _
             Hread Hwrite (f_equal fst Hx) Hexc Hc).
  split; [done|]. split; [done|].
  simpl. apply in_or_app. right. by left.
Qed.

(** C10.  In every record that [process_audio_file] returns, extracted or
    defaulted, the [samples] entry is the length of the [waveform] entry. *)
Theorem samples_is_waveform_length
    (uploaded_file : UploadedFile) (w w' : world)
    (status : Z) (message : string) (info : gmap string pyval) :
  process_audio_file uploaded_file w = (Return (status, message, info), w') ->
  exists waveform,
    info !! "waveform" = Some (VArr waveform) /\
    info !! "samples" = Some (VInt (Z.of_nat (length waveform))).
Proof.
  rewrite process_audio_file_run, try_finally_rmtree.
  destruct (process_body _ _ _) as [r w1] eqn:Hb. simpl.
  intros [= -> _].
  apply process_body_info in Hb as (y & sr & d & p & en & ->).
  exists y. split; apply audio_info_dict_lookup.
Qed.

(** C8.  Normalising a signal that is already canonical (one-dimensional,
    rate 16000) returns without calling the resampler; the output has the
    same rate and the same length, every output sample is the single
    precision rounding of the input sample at its position, hence equal to
    it within any tolerance [close] that the rounding respects, and the
    output is the input itself when the input is already single precision. *)
Theorem normalize_canonical_is_noop
    (close : Qc -> Qc -> Prop) (y : list npfloat) :
  (forall q, close q (float32 q)) ->
  exists out,
    normalize_decoded (Arr1 y, 16000%Z) = Return (out, 16000%Z) /\
    length out = length y /\
    Forall2 (np_close close) y out /\
    (Forall (fun x => np_float32 x = x) y -> out = y).
Proof.
  intros Hclose. exists (np_array_float32 y). split; [reflexivity|].
  unfold np_array_float32. split; [apply length_map|]. split.
  - apply Forall2_fmap_r, Forall_Forall2_diag, Forall_forall.
    intros [q|] _; simpl; [apply Hclose|done].
  - induction 1 as [|x l Hx _ IH]; simpl; [done|]. by rewrite Hx, IH.
Qed.

End Facts.

(** *** The down-mix *)

Section Downmix.

Lemma np_sum_finite (qs : list Qc) :
  np_sum (map Num qs) = Num (foldr Qcplus 0%Qc qs).
Proof.
  unfold np_sum. induction qs as [|q qs IH]; simpl; [done|].
  by rewrite IH.
Qed.

Lemma np_mean_finite (qs : list Qc) :
  qs <> [] -> np_mean (map Num qs) = Num (arith_mean qs).
Proof.
  intros Hne. destruct qs as [|q qs]; [done|].
  pose proof (np_sum_finite (q :: qs)) as Hs.
  unfold np_mean. cbn [map] in *. rewrite Hs.
  unfold arith_mean. cbn [length]. by rewrite length_map.
Qed.

Lemma across_channels_frame (c i : nat) (rows : list (list npfloat))
    (frame : list npfloat) :
  rows !! i = Some frame -> length frame = c ->
  across_channels c i rows = frame.
Proof.
  intros Hi Hlen. unfold across_channels, channel.
  apply list_eq. intros j. rewrite list_lookup_fmap.
  destruct (decide (j < c)) as [Hj|Hj].
  - rewrite lookup_seq_lt by done. simpl.
    rewrite list_lookup_fmap, Hi. simpl.
    destruct (frame !! j) eqn:E; [done|].
    apply lookup_ge_None in E. lia.
  - rewrite lookup_seq_ge by lia. simpl. symmetry.
    apply lookup_ge_None. lia.
Qed.

(** The down-mix step (lines 28-29) on a decoded array of [c] >= 2
    channels yields a one-dimensional signal with one sample per frame, and
    sample [i] is the mean of the samples at position [i] of all [c] input
    channels: the arithmetic mean of those values when they are numbers.  A
    single-channel array passes through the step unchanged. *)
Lemma to_mono_is_channel_mean (c : nat) (rows : list (list npfloat)) :
  2 <= c ->
  Forall (fun frame => length frame = c) rows ->
  length (to_mono (Arr2 rows)) = length rows /\
  (forall i, i < length rows ->
     to_mono (Arr2 rows) !! i = Some (np_mean (across_channels c i rows))) /\
  (forall i qs, across_channels c i rows = map Num qs -> i < length rows ->
     to_mono (Arr2 rows) !! i = Some (Num (arith_mean qs))) /\
  (forall y, ndim (Arr1 y) = 1 /\ to_mono (Arr1 y) = y).
Proof.
  intros Hc Hrect.
  assert (Hi : forall i, i < length rows ->
            to_mono (Arr2 rows) !! i = Some (np_mean (across_channels c i rows))).
  { intros i Hlt. simpl. rewrite list_lookup_fmap.
    destruct (lookup_lt_is_Some_2 rows i Hlt) as [frame Hf].
    rewrite Hf. simpl. f_equal. f_equal. symmetry.
    apply across_channels_frame; [done|].
    rewrite Forall_forall in Hrect. apply Hrect.
    by apply list_elem_of_lookup_2 in Hf. }
  split; [apply length_map|]. split; [done|]. split; [|done].
  intros i qs Hqs Hlt. rewrite (Hi i Hlt), Hqs. f_equal.
  apply np_mean_finite. intros ->.
  assert (Hl : length (across_channels c i rows) = 0) by (by rewrite Hqs).
  unfold across_channels in Hl. rewrite length_map, length_seq in Hl. lia.
Qed.

(** At the native rate 16000 nothing follows the down-mix but the
    coercion to single precision. *)
Lemma normalize_decoded_at_target `{ext : Collaborators} (arr : ndarray) :
  normalize_decoded (arr, 16000%Z)
  = Return (np_array_float32 (to_mono arr), 16000%Z).
Proof. reflexivity. Qed.

End Downmix.

(** *** The result card *)

Section ResultCard.

Lemma prefix_app (needle hay : string) :
  String.prefix needle hay = true <-> exists post, hay = needle +:+ post.
Proof.
  revert hay. induction needle as [|a needle IH]; intros [|b hay]; simpl.
  - split; [intros _; by exists EmptyString|done].
  - split; [intros _; by exists (String b hay)|done].
  - split; [done|]. by intros [post Hp].
  - destruct (ascii_dec a b) as [->|Hne].
    + rewrite IH. split; intros [post Hp]; exists post.
      * by rewrite Hp.
      * by injection Hp.
    + split; [done|]. intros [post Hp]. by injection Hp.
Qed.

Lemma str_contains_spec (needle hay : string) :
  str_contains needle hay = true <-> is_substring needle hay.
Proof.
  unfold is_substring. induction hay as [|b hay IH].
  - cbn [str_contains]. rewrite orb_false_r, prefix_app. split.
    + intros [post Hp]. by exists EmptyString, post.
    + intros ([|a pre] & post & Hp); [by exists post|discriminate].
  - cbn [str_contains]. rewrite orb_true_iff, IH, prefix_app. split.
    + intros [[post Hp]|(pre & post & Hp)].
      * by exists EmptyString, post.
      * exists (String b pre), post. simpl. by rewrite Hp.
    + intros ([|a pre] & post & Hp).
      * left. by exists post.
      * right. exists pre, post. simpl in Hp. by injection Hp.
Qed.

(** C6.  For every status and message, [render_results] shows exactly one
    of three result cards: with status 1, the deepfake verdict when the
    lower-cased message contains "fake" and the real-audio verdict when it
    does not, both carrying the message; with any other status, the
    inference-failed card, followed by the message. *)
Theorem render_result_card_three_states (status : Z) (message : string) :
  let calls := render_result_card status message in
  let fake := is_substring "fake" (str_lower message) in
  (status = 1%Z -> fake ->
     calls = [st_markdown (Card "#fee2e2" "#fecaca" "#b91c1c"
                             "❌ Deepfake Detected" "#7f1d1d" message)] /\
     rendered_states calls = [DeepfakeVerdict]) /\
  (status = 1%Z -> ~ fake ->
     calls = [st_markdown (Card "#dcfce7" "#bbf7d0" "#166534"
                             "✅ Real Audio" "#065f46" message)] /\
     rendered_states calls = [RealVerdict]) /\
  (status <> 1%Z ->
     calls = [st_markdown (Card "#fef9c3" "#fef08a" "#854d0e"
                             "⚠️ Inference Failed" "#713f12"
                             "Something went wrong while processing this audio.");
              st_write message] /\
     rendered_states calls = [InferenceFailed]) /\
  (exists state, rendered_states calls = [state]).
Proof.
  intros calls fake. subst calls fake. unfold render_result_card.
  rewrite <- str_contains_spec.
  destruct (Z.eqb_spec status 1) as [->|Hne].
  - destruct (str_contains "fake" (str_lower message)); simpl;
      repeat split; try done; eauto.
  - repeat split; try done; eauto.
Qed.

End ResultCard.

(** ** The statements at work on the concrete setting *)

Section Instances.

Import Demo.

Lemma round24_close24 (q : Qc) : close24 q (round24 q).
Proof.
  unfold close24, round24. apply Qcabs_Qcle_condition.
  set (t := (q * (16777216 # 1) + (1 # 2))%Q).
  pose proof (Qfloor_le t) as Hlo.
  pose proof (Qlt_floor t) as Hhi.
  rewrite inject_Z_plus in Hhi.
  assert (Hf : (Qfloor t # 16777216 == inject_Z (Qfloor t) * (1 # 16777216))%Q).
  { unfold Qeq, inject_Z. simpl. lia. }
  unfold Qcle, Qcminus, Qcplus, Qcopp. cbn [this Q2Qc].
  rewrite !Qred_correct, Hf.
  change (inject_Z 1) with 1%Q in Hhi.
  generalize dependent (inject_Z (Qfloor t)). subst t.
  generalize (this q). intros x f Hlo Hhi. split; lra.
Qed.

(** A text file: the decoder rejects it, the classifier reports a failure
    status, and the request returns that status with the default record. *)
Lemma extraction_failure_witness :
  (extract_audio_metadata (ext := collaborators)
     (staged_path notes_txt empty_world) (staged_world notes_txt)).1
  = Raise (PyException "LibsndfileError: Format not recognised.") /\
  (run notes_txt).1 = Return (0%Z, "Could not load audio", default_audio_info).
Proof.
  split; [reflexivity|].
  refine (proj1 (extraction_failure_does_not_block_classifier
            (ext := collaborators) notes_txt empty_world
            (world_at_try notes_txt empty_world) (staged_world notes_txt)
            (print ["Metadata extraction failed:";
                    "LibsndfileError: Format not recognised."]
               (staged_world notes_txt)).2
            "shopping list" tt
            (PyException "LibsndfileError: Format not recognised.")
            (Return (0%Z, "Could not load audio")) _ _ _ _ _));
    vm_compute; reflexivity.
Defined.

(** The empty signal: the pitch estimator fails on it, the energy estimator
    does not, and the record is complete. *)
Lemma describe_total_witness :
  catchable (librosa_yin (Collaborators := collaborators) [] 50 300) /\
  catchable (librosa_rms (Collaborators := collaborators) []) /\
  exists info,
    describe (ext := collaborators) [] target_sr empty_world
      = (Return info, empty_world) /\
    dom info = descriptor_keys /\
    info !! "samples" = Some (VInt 0) /\
    info !! "avg_pitch" = Some (VFloat NaN) /\
    info !! "waveform" = Some (VArr []).
Proof.
  assert (Hp : catchable (librosa_yin (Collaborators := collaborators) [] 50 300))
    by reflexivity.
  assert (He : catchable (librosa_rms (Collaborators := collaborators) []))
    by exact I.
  split; [exact Hp|]. split; [exact He|].
  destruct (describe_total_and_isolated (ext := collaborators) [] empty_world Hp He)
    as (info & Hrun & Hdom & Hn & _ & _ & Hpitch & _ & Hw).
  exists info. repeat split; assumption.
Defined.

(** A stereo file at 8 kHz: resampled, and reported at 16 kHz. *)
Lemma sr_16000_witness :
  sf_read (Collaborators := collaborators)
    (staged_path stereo_wav empty_world) (staged_world stereo_wav)
  = Return stereo8k /\
  exists info,
    extract_audio_metadata (ext := collaborators)
      (staged_path stereo_wav empty_world) (staged_world stereo_wav)
    = (Return info, staged_world stereo_wav) /\
    info !! "sr" = Some (VInt 16000).
Proof.
  assert (Hread : sf_read (Collaborators := collaborators)
            (staged_path stereo_wav empty_world) (staged_world stereo_wav)
          = Return (stereo8k.1, 8000%Z)) by (vm_compute; reflexivity).
  split; [exact Hread|].
  destruct (extract_audio_metadata_sr_16000 (ext := collaborators) _ _ _ _ Hread)
    as (_ & _ & Hret).
  destruct (Hret (mjoin (replicate 2 <$>
                    np_array_float32 (ext := collaborators) (to_mono stereo8k.1))))
    as (_ & info & Hrun & Hsr & _); [reflexivity|reflexivity|exact I|].
  exists info. split; assumption.
Defined.

(** The three-sample clip again, already canonical. *)
Lemma normalize_canonical_witness :
  (forall q, close24 q (float32 (Collaborators := collaborators) q)) /\
  exists out,
    normalize_decoded (ext := collaborators) mono16k = Return (out, 16000%Z) /\
    length out = 3 /\
    Forall2 (np_close close24) (to_mono mono16k.1) out.
Proof.
  split; [exact round24_close24|].
  destruct (normalize_canonical_is_noop (ext := collaborators) close24
              (to_mono mono16k.1) round24_close24)
    as (out & Hrun & Hlen & Hclose & _).
  exists out. repeat split; assumption.
Defined.

(** C9, as the claim states it, fails.  The decoder rejects an MP3 upload,
    and the request still produces a result: the classifier's verdict with
    the default record. *)
Lemma decode_failure_still_yields_result :
  sf_read (Collaborators := collaborators)
    (staged_path clip_mp3 empty_world) (staged_world clip_mp3)
  = Raise (PyException "LibsndfileError: Format not recognised.") /\
  (run clip_mp3).1 = Return (1%Z, "Fake voice detected", default_audio_info).
Proof. split; vm_compute; reflexivity. Qed.

Lemma decode_failure_witness :
  sf_read (Collaborators := collaborators)
    (staged_path clip_mp3 empty_world) (staged_world clip_mp3)
  = Raise (PyException "LibsndfileError: Format not recognised.") /\
  extract_audio_metadata (ext := collaborators)
    (staged_path clip_mp3 empty_world) (staged_world clip_mp3)
  = (Raise (PyException "LibsndfileError: Format not recognised."),
     staged_world clip_mp3) /\
  (run clip_mp3).1
  = with_default_info (Return (1%Z, "Fake voice detected")).
Proof.
  assert (Hsf : sf_read (Collaborators := collaborators)
            (staged_path clip_mp3 empty_world) (staged_world clip_mp3)
          = Raise (PyException "LibsndfileError: Format not recognised."))
    by (vm_compute; reflexivity).
  split; [exact Hsf|].
  destruct (decode_failure_is_absorbed (ext := collaborators)
              clip_mp3 empty_world
              (world_at_try clip_mp3 empty_world) (staged_world clip_mp3)
              (print ["Metadata extraction failed:";
                      "LibsndfileError: Format not recognised."]
                 (staged_world clip_mp3)).2
              "ID3 fake voice" tt
              (PyException "LibsndfileError: Format not recognised.")
              (Return (1%Z, "Fake voice detected")))
    as (Hx & Hrun & _);
    [vm_compute; reflexivity|vm_compute; reflexivity|exact Hsf|reflexivity
    |vm_compute; reflexivity|].
  split; assumption.
Defined.

(** A decodable clip: three samples counted, three samples surfaced. *)
Lemma samples_is_waveform_length_witness :
  run clip_wav
  = (Return (1%Z, "Real voice detected", clip_info), (run clip_wav).2) /\
  exists waveform,
    clip_info !! "waveform" = Some (VArr waveform) /\
    clip_info !! "samples" = Some (VInt (Z.of_nat (length waveform))).
Proof.
  assert (Hrun : run clip_wav
            = (Return (1%Z, "Real voice detected", clip_info), (run clip_wav).2))
    by (vm_compute; reflexivity).
  split; [exact Hrun|].
  exact (samples_is_waveform_length (ext := collaborators) clip_wav empty_world
           _ _ _ _ Hrun).
Defined.

End Instances.

(** ** Further facts: the orchestrator, the cards and the script *)

Section Orchestration.

Context `{ext : Collaborators}.

(** X1.  A failure while staging aborts the request with that very
    exception, whatever its class: when the upload's [read] raises, or when
    it returns and writing the staged file raises, [process_audio_file]
    raises the same exception. *)
Theorem staging_failure_propagates
    (uploaded_file : UploadedFile) (w : world) (e : exn) :
  ((exists w1, read uploaded_file (world_at_try uploaded_file w) = (Raise e, w1)) \/
   (exists data w1 w2,
      read uploaded_file (world_at_try uploaded_file w) = (Return data, w1) /\
      open_wb_write (staged_path uploaded_file w) data w1 = (Raise e, w2))) ->
  (process_audio_file uploaded_file w).1 = Raise e.
Proof.
  intros H. rewrite process_audio_file_run, try_finally_rmtree. simpl.
  unfold process_body. rewrite M_bind_run.
  destruct H as [[w1 Hr]|(data & w1 & w2 & Hr & Hw)]; rewrite Hr; [done|].
  by rewrite M_bind_run, Hw.
Qed.

(** X2.  [except Exception] does not absorb an exception that derives from
    [BaseException] only: when extraction raises one on the staged file,
    [process_audio_file] raises it, whatever the classifier would do. *)
Theorem uncatchable_extraction_error_propagates
    (uploaded_file : UploadedFile) (w w1 w2 : world)
    (data : string) (u : unit) (e : exn) :
  let path := staged_path uploaded_file w in
  read uploaded_file (world_at_try uploaded_file w) = (Return data, w1) ->
  open_wb_write path data w1 = (Return u, w2) ->
  (extract_audio_metadata path w2).1 = Raise e ->
  is_Exception e = false ->
  (process_audio_file uploaded_file w).1 = Raise e.
Proof.
  intros path Hr Hw Hx Hexc.
  rewrite process_audio_file_run, try_finally_rmtree. simpl. fold path.
  unfold process_body. rewrite M_bind_run, Hr. rewrite M_bind_run, Hw.
  rewrite M_bind_run. unfold try_except_Exception.
  destruct (extract_audio_metadata path w2) as [r wx]. simpl in Hx. subst r.
  by rewrite Hexc.
Qed.

(** X3.  When the upload was staged and extraction returned the record
    [info], the request ends as the classifier does on the staged path: it
    returns the classifier's status and message, unchanged, with [info];
    and when the classifier raises, the request raises the classifier's
    exception and no record is returned. *)
Theorem classifier_outcome_passes_through
    (uploaded_file : UploadedFile) (w w1 w2 w3 : world)
    (data : string) (u : unit) (info : gmap string pyval)
    (rc : result (Z * string)) :
  let path := staged_path uploaded_file w in
  read uploaded_file (world_at_try uploaded_file w) = (Return data, w1) ->
  open_wb_write path data w1 = (Return u, w2) ->
  (extract_audio_metadata path w2).1 = Return info ->
  infa_deepfake path w2 = (rc, w3) ->
  (process_audio_file uploaded_file w).1 =
    match rc with
    | Return (status, message) => Return (status, message, info)
    | Raise e => Raise e
    end.
Proof.
  intros path Hr Hw Hx Hc.
  rewrite process_audio_file_run, try_finally_rmtree. simpl. fold path.
  unfold process_body. rewrite M_bind_run, Hr. rewrite M_bind_run, Hw.
  rewrite M_bind_run. unfold try_except_Exception.
  pose proof (extract_audio_metadata_world path w2) as Hwx.
  destruct (extract_audio_metadata path w2) as [r wx]. simpl in Hx, Hwx.
  subst r wx. rewrite M_bind_run, Hc.
  by destruct rc as [[status message]|e].
Qed.

End Orchestration.

Section Records.

Context `{ext : Collaborators}.

Lemma extract_audio_metadata_record (filepath : string) (w w' : world)
    (info : gmap string pyval) :
  extract_audio_metadata filepath w = (Return info, w') ->
  exists y avg_pitch avg_energy,
    info = audio_info_dict (Z.of_nat (length y)) 16000
             (Num (Qc_of_nat (length y) / Qc_of_Z 16000)) avg_pitch avg_energy y.
Proof.
  rewrite extract_audio_metadata_run.
  destruct (sf_read filepath w) as [d|e]; [|discriminate].
  destruct (normalize_decoded d) as [[y sr]|e] eqn:En; [|discriminate].
  apply normalize_decoded_sr in En. subst sr.
  unfold describe. rewrite M_bind_run, get_duration_target.
  unfold liftR at 1. cbv beta iota. intros Hd.
  assert (Hs : describe y target_sr w = (Return info, w')).
  { unfold describe. rewrite M_bind_run, get_duration_target. exact Hd. }
  apply describe_shape in Hs as (_ & duration & avg_pitch & avg_energy & Hi).
  revert Hd. rewrite M_bind_run.
  destruct (try_except_Exception _ _ w) as [[p|e] w1]; [|discriminate].
  rewrite M_bind_run.
  destruct (try_except_Exception _ _ w1) as [[en|e] w2]; [|discriminate].
  intros [= <- _]. eauto.
Qed.

(** X4.  A record that [process_audio_file] returns has exactly the six
    keys and one of two shapes: the default record, the only one whose rate
    is 0, or a record at rate 16000 whose sample count is the length of its
    waveform and whose duration is that count divided by 16000. *)
Theorem returned_record_shape
    (uploaded_file : UploadedFile) (w w' : world)
    (status : Z) (message : string) (info : gmap string pyval) :
  process_audio_file uploaded_file w = (Return (status, message, info), w') ->
  dom info = descriptor_keys /\
  (info !! "sr" = Some (VInt 0) <-> info = default_audio_info) /\
  (info = default_audio_info \/
   exists y,
     info !! "sr" = Some (VInt 16000) /\
     info !! "waveform" = Some (VArr y) /\
     info !! "samples" = Some (VInt (Z.of_nat (length y))) /\
     info !! "duration" = Some (VFloat (Num (Qc_of_nat (length y) / Qc_of_Z 16000)))).
Proof.
  rewrite process_audio_file_run, try_finally_rmtree.
  destruct (process_body _ _ _) as [r wb] eqn:Hb. simpl. intros [= -> _].
  assert (Hshape : info = default_audio_info \/
            exists y avg_pitch avg_energy,
              info = audio_info_dict (Z.of_nat (length y)) 16000
                       (Num (Qc_of_nat (length y) / Qc_of_Z 16000))
                       avg_pitch avg_energy y).
  { revert Hb. unfold process_body. rewrite M_bind_run.
    destruct (read uploaded_file _) as [[data|e] w1]; [|discriminate].
    rewrite M_bind_run.
    destruct (open_wb_write _ data w1) as [[u|e] w2]; [|discriminate].
    rewrite M_bind_run. unfold try_except_Exception.
    destruct (extract_audio_metadata _ w2) as [[info0|e] wx] eqn:Hx.
    - apply extract_audio_metadata_record in Hx.
      rewrite M_bind_run.
      destruct (infa_deepfake _ wx) as [[[s m]|e] w3]; [|discriminate].
      intros [= _ _ <- _]. by right.
    - destruct (is_Exception e); [|discriminate].
      rewrite M_bind_run, print_run, M_ret_run. rewrite M_bind_run.
      match goal with |- context [infa_deepfake ?p ?wp] =>
        destruct (infa_deepfake p wp) as [[[s m]|e'] w3] end; [|discriminate].
      intros [= _ _ <- _]. by left. }
  destruct Hshape as [->|(y & p & en & ->)].
  - split; [apply audio_info_dict_dom|]. split; [|by left].
    split; [done|]. intros _. apply audio_info_dict_lookup.
  - split; [apply audio_info_dict_dom|].
    pose proof (audio_info_dict_lookup (Z.of_nat (length y)) 16000
                  (Num (Qc_of_nat (length y) / Qc_of_Z 16000)) p en y)
      as (Hn & Hsr & Hd & _ & _ & Hw).
    split.
    + split.
      * intros H0. rewrite Hsr in H0. discriminate.
      * intros Heq.
        assert (Hsr0 : default_audio_info !! "sr" = Some (VInt 0))
          by apply audio_info_dict_lookup.
        rewrite <- Heq, Hsr in Hsr0. discriminate.
    + right. exists y. by repeat split.
Qed.

Lemma np_sum_numbers (l : list npfloat) :
  Forall (fun x => isnan x = false) l -> exists q, np_sum l = Num q.
Proof.
  unfold np_sum. induction 1 as [|x l Hx _ [q IH]]; simpl; [by eexists|].
  rewrite IH. destruct x as [a|]; [by eexists|discriminate].
Qed.

Lemma np_nanmean_nan (l : list npfloat) :
  np_nanmean l = NaN <-> Forall (fun x => x = NaN) l.
Proof.
  unfold np_nanmean. induction l as [|x l IH].
  - split; [constructor|done].
  - destruct x as [q|]; cbn [List.filter isnan negb].
    + split; [|by inversion 1].
      assert (Hn : Forall (fun x => isnan x = false)
                (Num q :: List.filter (fun x => negb (isnan x)) l)).
      { constructor; [done|]. apply Forall_forall. intros x Hx.
        apply list_elem_of_In, filter_In in Hx as [_ Hx].
        by destruct (isnan x). }
      destruct (np_sum_numbers _ Hn) as [s Hs].
      unfold np_mean. by rewrite Hs.
    + rewrite IH. split; [by constructor|by inversion 1].
Qed.

Lemma metric_of_nan (r : result (list npfloat)) :
  metric_of r = NaN <->
  (exists e, r = Raise e) \/
  (exists frames, r = Return frames /\ Forall (fun x => x = NaN) frames).
Proof.
  destruct r as [frames|e]; simpl.
  - rewrite np_nanmean_nan. split.
    + intros H. right. by exists frames.
    + intros [[e He]|(frames' & [= <-] & H)]; [discriminate|done].
  - split; [|done]. intros _. left. by exists e.
Qed.

(** X5.  In the record of the descriptor extractor, the average pitch is
    not-a-number exactly when the pitch estimator raised or returned no
    frame that is a number (no frame at all included); likewise the average
    energy and the energy estimator. *)
Theorem metric_is_nan_iff_no_estimate (y : list npfloat) (w : world) :
  catchable (librosa_yin y 50 300) ->
  catchable (librosa_rms y) ->
  exists info,
    describe y target_sr w = (Return info, w) /\
    (info !! "avg_pitch" = Some (VFloat NaN) <->
       (exists e, librosa_yin y 50 300 = Raise e) \/
       (exists frames, librosa_yin y 50 300 = Return frames /\
                       Forall (fun x => x = NaN) frames)) /\
    (info !! "avg_energy" = Some (VFloat NaN) <->
       (exists e, librosa_rms y = Raise e) \/
       (exists frames, librosa_rms y = Return frames /\
                       Forall (fun x => x = NaN) frames)).
Proof.
  intros Hp He. eexists. split; [by apply describe_run|].
  match goal with |- context [audio_info_dict ?n ?sr ?d ?p ?e ?y] =>
    pose proof (audio_info_dict_lookup n sr d p e y)
      as (_ & _ & _ & Hpitch & Henergy & _) end.
  rewrite Hpitch, Henergy, <- !metric_of_nan.
  split; (split; [by intros [= ->]|by intros ->]).
Qed.

(** X6.  When the two estimators fail only with catchable exceptions,
    [extract_audio_metadata] returns a record exactly when the decoder and
    the normalisation return, and it raises [e] exactly when the decoder
    raises [e] or, after a successful decode, the normalisation (that is,
    the resampler) raises [e].  The world is unchanged either way. *)
Theorem extraction_fails_only_in_decode_or_resample
    (filepath : string) (w : world) :
  (forall y, catchable (librosa_yin y 50 300)) ->
  (forall y, catchable (librosa_rms y)) ->
  ((exists info, extract_audio_metadata filepath w = (Return info, w)) <->
   (exists d y sr, sf_read filepath w = Return d /\
                   normalize_decoded d = Return (y, sr))) /\
  (forall e,
     extract_audio_metadata filepath w = (Raise e, w) <->
     sf_read filepath w = Raise e \/
     (exists d, sf_read filepath w = Return d /\ normalize_decoded d = Raise e)).
Proof.
  intros Hp He. rewrite extract_audio_metadata_run.
  destruct (sf_read filepath w) as [d|e0].
  - destruct (normalize_decoded d) as [[y sr]|e0] eqn:En.
    + pose proof (normalize_decoded_sr _ _ _ En) as ->.
      rewrite (describe_run y w (Hp y) (He y)). split.
      * split; [intros _; by exists d, y, target_sr|intros _; by eexists].
      * intros e. split; [done|].
        intros [H|(d' & [= <-] & H)]; [done|]. rewrite En in H. discriminate.
    + split.
      * split; [by intros [info H]|].
        intros (d' & y & sr & [= <-] & H). rewrite En in H. discriminate.
      * intros e. split.
        -- intros [= ->]. right. by exists d.
        -- intros [H|(d' & [= <-] & H)]; [done|]. rewrite En in H. by injection H as ->.
  - split.
    + split; [by intros [info H]|by intros (d & y & sr & H & _)].
    + intros e. split; [intros [= ->]; by left|].
      intros [[= ->]|(d & H & _)]; done.
Qed.

End Records.

Section Staging.

Context `{ext : Collaborators}.

Lemma shutil_rmtree_keeps_outside (d p : string) (w : world) :
  in_tree d p = false ->
  files (shutil_rmtree d w).2 !! p = files w !! p.
Proof.
  intros Hout. simpl. destruct (files w !! p) as [x|] eqn:E.
  - by apply map_lookup_filter_Some_2.
  - apply map_lookup_filter_None_2. by left.
Qed.

Lemma append_assoc3 (a b c : string) : (a +:+ b) +:+ c = a +:+ (b +:+ c).
Proof.
  induction a as [|x a IH]; [done|].
  change (String x ((a +:+ b) +:+ c) = String x (a +:+ (b +:+ c))).
  by f_equal.
Qed.

Lemma os_path_join_relative (d b : string) :
  d <> EmptyString -> endswith_sep d = false -> startswith_sep b = false ->
  os_path_join d b = (d +:+ "/") +:+ b.
Proof.
  intros Hd Hend Hb. unfold os_path_join. rewrite Hb, Hend.
  destruct (String.eqb_spec d EmptyString) as [->|_]; [done|].
  symmetry. apply append_assoc3.
Qed.

Lemma os_path_join_in_tree (d b : string) :
  d <> EmptyString -> endswith_sep d = false -> startswith_sep b = false ->
  in_tree d (os_path_join d b) = true.
Proof.
  intros Hd Hend Hb. rewrite os_path_join_relative by done.
  unfold in_tree. apply orb_true_iff. right. apply prefix_app. by exists b.
Qed.

Lemma startswith_sep_contains (s : string) :
  startswith_sep s = true -> str_contains "/" s = true.
Proof.
  intros Hs. apply str_contains_spec. exists EmptyString.
  destruct s as [|a rest]; [discriminate|]. exists rest.
  destruct a as [[] [] [] [] [] [] [] []]; try discriminate. reflexivity.
Qed.

Lemma plain_file_name_relative (s : string) :
  plain_file_name s = true -> startswith_sep s = false.
Proof.
  unfold plain_file_name. intros Hplain.
  destruct (startswith_sep s) eqn:E; [|done].
  apply startswith_sep_contains in E. rewrite E in Hplain. discriminate.
Qed.

(** X7.  A display name that is a plain file name (one path component: no
    slash, not empty, not "." or "..") is staged directly inside the
    temporary directory (whose name is not empty and does not end with a
    slash), and the staged copy is gone when the request ends, however it
    ends. *)
Theorem plain_name_is_staged_inside_and_deleted
    (uploaded_file : UploadedFile) (w : world) :
  plain_file_name (name uploaded_file) = true ->
  mkdtemp_name w <> EmptyString ->
  endswith_sep (mkdtemp_name w) = false ->
  staged_path uploaded_file w
    = (mkdtemp_name w +:+ "/") +:+ name uploaded_file /\
  in_tree (mkdtemp_name w) (staged_path uploaded_file w) = true /\
  files (process_audio_file uploaded_file w).2 !! staged_path uploaded_file w = None.
Proof.
  intros Hplain Hd Hend. unfold staged_path.
  pose proof (plain_file_name_relative _ Hplain) as Hrel.
  split; [by apply os_path_join_relative|].
  assert (Hin : in_tree (mkdtemp_name w)
                  (os_path_join (mkdtemp_name w) (name uploaded_file)) = true)
    by (by apply os_path_join_in_tree).
  split; [done|].
  rewrite process_audio_file_run, try_finally_rmtree. cbn [snd].
  by apply shutil_rmtree_removes.
Qed.

(** X8.  A display name that starts with a slash replaces the temporary
    directory in the staged path: the upload is written to, decoded from and
    classified at that absolute path, and when the path lies outside the
    temporary directory the clean-up leaves the file there as the body of
    the request left it. *)
Theorem absolute_name_escapes_temp_dir
    (uploaded_file : UploadedFile) (w : world) :
  startswith_sep (name uploaded_file) = true ->
  staged_path uploaded_file w = name uploaded_file /\
  (in_tree (mkdtemp_name w) (name uploaded_file) = false ->
   files (process_audio_file uploaded_file w).2 !! name uploaded_file
   = files (process_body uploaded_file (name uploaded_file)
              (world_at_try uploaded_file w)).2 !! name uploaded_file).
Proof.
  intros Habs.
  assert (Hp : staged_path uploaded_file w = name uploaded_file)
    by (unfold staged_path, os_path_join; by rewrite Habs).
  split; [done|]. intros Hout.
  rewrite process_audio_file_run, try_finally_rmtree, Hp. cbn [snd].
  by apply shutil_rmtree_keeps_outside.
Qed.

End Staging.

Section Screen.

Context `{fmt : Formatting} `{ext : Collaborators}.

Lemma App_bind_run {A B} (m : App A) (f : A -> App B) (s : app) :
  (m ≫= f) s =
  match m s with
  | (Return a, s1) => f a s1
  | (Raise e, s1) => (Raise e, s1)
  end.
Proof. reflexivity. Qed.

Lemma emit_run (u : ui) (s : app) : emit u s = (Return tt, draw [u] s).
Proof. reflexivity. Qed.

Lemma draw_draw (us vs : list ui) (s : app) :
  draw vs (draw us s) = draw (us ++ vs) s.
Proof. unfold draw. simpl. by rewrite app_assoc. Qed.

Lemma emit_all_run (us : list ui) (s : app) :
  emit_all us s = (Return tt, draw us s).
Proof.
  revert s. induction us as [|u us IH]; intros s.
  - unfold draw. rewrite app_nil_r. by destruct s.
  - cbn [emit_all]. rewrite App_bind_run, emit_run, IH. by rewrite draw_draw.
Qed.

Lemma evalR_run {A} (r : result A) (s : app) : evalR r s = (r, s).
Proof. reflexivity. Qed.

Lemma getitem_audio_info_dict (samples sr : Z)
    (duration avg_pitch avg_energy : npfloat) (waveform : list npfloat) :
  let info := audio_info_dict samples sr duration avg_pitch avg_energy waveform in
  getitem info "samples" = Return (VInt samples) /\
  getitem info "sr" = Return (VInt sr) /\
  getitem info "duration" = Return (VFloat duration) /\
  getitem info "avg_pitch" = Return (VFloat avg_pitch) /\
  getitem info "avg_energy" = Return (VFloat avg_energy) /\
  getitem info "waveform" = Return (VArr waveform).
Proof.
  intros info.
  pose proof (audio_info_dict_lookup samples sr duration avg_pitch avg_energy waveform)
    as (H1 & H2 & H3 & H4 & H5 & H6).
  unfold getitem. fold info in H1, H2, H3, H4, H5, H6.
  by rewrite H1, H2, H3, H4, H5, H6.
Qed.

Lemma render_results_run (status : Z) (message : string) (samples sr : Z)
    (duration avg_pitch avg_energy : npfloat) (waveform : list npfloat)
    (s : app) :
  render_results status message
    (audio_info_dict samples sr duration avg_pitch avg_energy waveform) s
  = (Return tt,
     draw (rendering status message samples sr duration avg_pitch avg_energy
             waveform) s).
Proof.
  pose proof (getitem_audio_info_dict samples sr duration avg_pitch avg_energy
                waveform) as (Hn & Hsr & Hd & Hp & He & Hw).
  cbv zeta in Hn, Hsr, Hd, Hp, He, Hw.
  unfold render_results, render_waveform.
  rewrite App_bind_run, emit_run.
  rewrite App_bind_run, emit_all_run, draw_draw.
  rewrite App_bind_run, emit_run, draw_draw.
  rewrite App_bind_run, emit_run, draw_draw.
  rewrite App_bind_run, Hd, evalR_run. cbn [mbind result_bind format_f].
  rewrite App_bind_run, emit_run, draw_draw.
  rewrite App_bind_run, Hsr, evalR_run. cbn [mbind result_bind mret result_ret].
  rewrite App_bind_run, emit_run, draw_draw.
  rewrite App_bind_run, Hn, evalR_run. cbn [mbind result_bind mret result_ret].
  rewrite App_bind_run, emit_run, draw_draw.
  rewrite App_bind_run, Hp, evalR_run.
  cbn [mbind result_bind mret result_ret blank_if_nan isnan_truth].
  replace (if isnan avg_pitch then Return EmptyString
           else format_f 2 (VFloat avg_pitch))
    with (Return (A := string)
            (if isnan avg_pitch then EmptyString else format_fixed 2 avg_pitch))
    by (by destruct (isnan avg_pitch)).
  rewrite App_bind_run, emit_run, draw_draw.
  rewrite App_bind_run, He, evalR_run.
  cbn [mbind result_bind mret result_ret blank_if_nan isnan_truth].
  replace (if isnan avg_energy then Return EmptyString
           else format_f 5 (VFloat avg_energy))
    with (Return (A := string)
            (if isnan avg_energy then EmptyString else format_fixed 5 avg_energy))
    by (by destruct (isnan avg_energy)).
  rewrite App_bind_run, emit_run, draw_draw.
  rewrite App_bind_run, emit_run, draw_draw.
  rewrite App_bind_run, emit_run, draw_draw.
  rewrite App_bind_run, Hw, evalR_run.
  rewrite App_bind_run, evalR_run. cbn [array_size].
  unfold rendering.
  destruct waveform as [|x waveform]; cbn [length Nat.ltb Nat.leb];
    rewrite emit_run, draw_draw; f_equal; f_equal;
    rewrite <- !app_assoc; reflexivity.
Qed.

End Screen.

Section Cards.

Local Open Scope list_scope.

Context `{fmt : Formatting} `{ext : Collaborators}.

Lemma result_calls_app (us vs : list ui) :
  result_calls (us ++ vs) = result_calls us ++ result_calls vs.
Proof. apply omap_app. Qed.

Lemma result_calls_ui_result (cs : list st_call) :
  result_calls (ui_result <$> cs) = cs.
Proof. induction cs as [|c cs IH]; simpl; [done|]. by f_equal. Qed.

Lemma getitem_Return (info : gmap string pyval) (k : string) (v : pyval) :
  getitem info k = Return v <-> info !! k = Some v.
Proof.
  unfold getitem. destruct (info !! k) as [v'|]; split; intros H;
    try discriminate; by injection H as ->.
Qed.

Lemma getitem_catchable (info : gmap string pyval) (k : string) :
  catchable (getitem info k).
Proof. unfold getitem. by destruct (info !! k). Qed.

Lemma format_f_catchable (digits : nat) (v : pyval) :
  catchable (format_f digits v).
Proof. by destruct v. Qed.

Lemma blank_if_nan_catchable (digits : nat) (v : pyval) :
  catchable (blank_if_nan digits v).
Proof.
  unfold blank_if_nan. destruct v as [z|x|[|x [|x' y]]]; simpl; try done.
  - by destruct ((- 2 ^ 63 <=? z) && (z <? 2 ^ 64))%Z.
  - by destruct (isnan x).
  - by destruct (isnan x).
Qed.

Lemma array_size_catchable (v : pyval) : catchable (array_size v).
Proof. by destruct v. Qed.

Lemma catchable_bind {A B} (r : result A) (f : A -> result B) :
  catchable r -> (forall a, catchable (f a)) -> catchable (r ≫= f).
Proof. destruct r as [a|e]; simpl; [intros _ H; apply H|done]. Qed.

(** The part of [render_results] after the result card (lines 167-264). *)
Lemma render_results_frame (status : Z) (message : string)
    (info : gmap string pyval) (s : app) :
  exists evs,
    (render_results status message info s).2 = draw evs s /\
    result_calls evs = render_result_card status message /\
    catchable (render_results status message info s).1 /\
    ((render_results status message info s).1 = Return tt ->
     forall k, k ∈ descriptor_keys -> is_Some (info !! k)).
Proof.
  unfold render_results, render_waveform.
  rewrite App_bind_run, emit_run.
  rewrite App_bind_run, emit_all_run, draw_draw.
  rewrite App_bind_run, emit_run, draw_draw.
  rewrite App_bind_run, emit_run, draw_draw.
  set (hdr := (([ui_static detection_result_title] ++
                (ui_result <$> render_result_card status message)) ++
               [ui_static line_break]) ++ [ui_static audio_profile_title]).
  assert (Hhdr : forall vs, result_calls vs = [] ->
            result_calls (hdr ++ vs) = render_result_card status message).
  { intros vs Hvs. subst hdr.
    rewrite !result_calls_app, result_calls_ui_result, Hvs. simpl.
    by rewrite !app_nil_r. }
  assert (Hfail : forall (A : Type) (r : result A) e vs,
            catchable r -> r = Raise e -> result_calls vs = [] ->
            exists evs,
              (Raise (A := unit) e, draw (hdr ++ vs) s).2 = draw evs s /\
              result_calls evs = render_result_card status message /\
              catchable (Raise (A := unit) e, draw (hdr ++ vs) s).1 /\
              ((Raise (A := unit) e, draw (hdr ++ vs) s).1 = Return tt ->
               forall k, k ∈ descriptor_keys -> is_Some (info !! k))).
  { intros A r e vs Hc -> Hvs. eexists. split; [reflexivity|].
    split; [by apply Hhdr|]. split; [exact Hc|discriminate]. }
  rewrite App_bind_run, evalR_run.
  destruct (getitem info "duration" ≫= format_f 2) as [d|e] eqn:E1.
  2:{ rewrite <- (app_nil_r hdr). eapply Hfail; [|exact E1|done].
      apply catchable_bind; [apply getitem_catchable|apply format_f_catchable]. }
  rewrite App_bind_run, emit_run, draw_draw.
  rewrite App_bind_run, evalR_run.
  destruct (getitem info "sr") as [v2|e] eqn:E2; cbn [mbind result_bind mret result_ret].
  2:{ eapply Hfail; [|exact E2|done]. apply getitem_catchable. }
  rewrite App_bind_run, emit_run, draw_draw.
  rewrite App_bind_run, evalR_run.
  destruct (getitem info "samples") as [v3|e] eqn:E3; cbn [mbind result_bind mret result_ret].
  2:{ rewrite <- app_assoc. eapply Hfail; [|exact E3|done]. apply getitem_catchable. }
  rewrite App_bind_run, emit_run, draw_draw.
  rewrite App_bind_run, evalR_run.
  destruct (getitem info "avg_pitch" ≫= blank_if_nan 2) as [p|e] eqn:E4.
  2:{ rewrite <- !app_assoc. eapply Hfail; [|exact E4|done].
      apply catchable_bind; [apply getitem_catchable|apply blank_if_nan_catchable]. }
  rewrite App_bind_run, emit_run, draw_draw.
  rewrite App_bind_run, evalR_run.
  destruct (getitem info "avg_energy" ≫= blank_if_nan 5) as [en|e] eqn:E5.
  2:{ rewrite <- !app_assoc. eapply Hfail; [|exact E5|done].
      apply catchable_bind; [apply getitem_catchable|apply blank_if_nan_catchable]. }
  rewrite App_bind_run, emit_run, draw_draw.
  rewrite App_bind_run, emit_run, draw_draw.
  rewrite App_bind_run, emit_run, draw_draw.
  rewrite App_bind_run, evalR_run.
  destruct (getitem info "waveform") as [v6|e] eqn:E6.
  2:{ rewrite <- !app_assoc. eapply Hfail; [|exact E6|done]. apply getitem_catchable. }
  rewrite App_bind_run, evalR_run.
  destruct (array_size v6) as [n|e] eqn:E7.
  2:{ rewrite <- !app_assoc. eapply Hfail; [|exact E7|done]. apply array_size_catchable. }
  assert (Hkeys : forall k, k ∈ descriptor_keys -> is_Some (info !! k)).
  { assert (H1 : is_Some (info !! "duration")).
    { unfold getitem in E1. destruct (info !! "duration"); [by eexists|discriminate]. }
    assert (H4 : is_Some (info !! "avg_pitch")).
    { unfold getitem in E4. destruct (info !! "avg_pitch"); [by eexists|discriminate]. }
    assert (H5 : is_Some (info !! "avg_energy")).
    { unfold getitem in E5. destruct (info !! "avg_energy"); [by eexists|discriminate]. }
    apply getitem_Return in E2, E3, E6.
    intros k Hk. unfold descriptor_keys in Hk.
    rewrite !elem_of_union, !elem_of_singleton in Hk.
    destruct Hk as [[[[[->| ->]| ->]| ->]| ->]| ->]; eauto. }
  destruct v6 as [z|x|y]; try discriminate. injection E7 as <-.
  destruct (0 <? length y)%nat; rewrite emit_run, draw_draw;
    (eexists; split; [reflexivity|]; split; [|split; [done|by intros _]]);
    rewrite <- !app_assoc; by apply Hhdr.
Qed.

End Cards.

Section Script.

Context `{fmt : Formatting} `{ext : Collaborators}.

Lemma main_run (inputs : widget_inputs) (s : app) :
  main inputs s =
  (_ ← input_controls inputs; analysis_panel) (at_controls inputs s).
Proof.
  destruct s as [[[m|] [r|]] w scr];
    destruct inputs as [[] [] f1 c1 f2 c2];
    unfold at_controls, next_mode, prologue_events, main, init_session,
      mode_toggle, mbind, App_bind, mret, App_ret, emit, get_session,
      set_mode, set_result, get_mode;
    cbn -[String.eqb input_controls analysis_panel];
    rewrite <- ?app_assoc; reflexivity.
Qed.

Lemma preview_and_analyze_run (file : option UploadedFile)
    (button_key : string) (clicked : bool) (spinner : string) (s : app) :
  preview_and_analyze file button_key clicked spinner s =
  let s1 := draw (preview_events file button_key clicked spinner) s in
  match (if clicked then file else None) with
  | None => (Return tt, s1)
  | Some uploaded_file =>
      match process_audio_file uploaded_file (app_fs s) with
      | (Return (status, message, info), w) =>
          (Return tt, with_result (StoredResult status message info) w s1)
      | (Raise e, w) => (Raise e, with_fs w s1)
      end
  end.
Proof.
  cbv zeta. unfold preview_and_analyze, preview_events.
  destruct file as [uploaded_file|].
  - rewrite App_bind_run, emit_run.
    do 3 (rewrite App_bind_run, emit_run, draw_draw).
    destruct clicked.
    + rewrite App_bind_run, emit_run, draw_draw.
      rewrite App_bind_run. unfold on_fs. cbn [app_fs draw].
      by destruct (process_audio_file uploaded_file (app_fs s))
        as [[[[st ms] info]|e] w'].
    + rewrite app_nil_r. reflexivity.
  - unfold draw. rewrite app_nil_r. destruct s. by destruct clicked.
Qed.

Lemma input_controls_run (inputs : widget_inputs) (mode : string) (s : app) :
  ss_mode (app_session s) = Some mode ->
  input_controls inputs s =
  let s1 := draw (controls_events inputs mode) s in
  match requested inputs mode with
  | None => (Return tt, s1)
  | Some uploaded_file =>
      match process_audio_file uploaded_file (app_fs s) with
      | (Return (status, message, info), w) =>
          (Return tt, with_result (StoredResult status message info) w s1)
      | (Raise e, w) => (Raise e, with_fs w s1)
      end
  end.
Proof.
  intros Hmode. unfold input_controls, requested, controls_events.
  rewrite App_bind_run. unfold get_mode. rewrite Hmode.
  destruct (String.eqb mode "upload").
  - rewrite App_bind_run, emit_run, App_bind_run, emit_run, draw_draw.
    rewrite preview_and_analyze_run. cbv zeta. rewrite draw_draw. cbn [app_fs draw].
    destruct (if analyze_upload inputs then file_uploader inputs else None)
      as [f|]; [|done].
    by destruct (process_audio_file f (app_fs s)) as [[[[st ms] info]|e] w'].
  - rewrite App_bind_run, emit_run, App_bind_run, emit_run, draw_draw.
    rewrite preview_and_analyze_run. cbv zeta. rewrite draw_draw. cbn [app_fs draw].
    destruct (if analyze_record inputs then recorder inputs else None)
      as [f|]; [|done].
    by destruct (process_audio_file f (app_fs s)) as [[[[st ms] info]|e] w'].
Qed.

End Script.

Section Runs.

Local Open Scope list_scope.

Context `{fmt : Formatting} `{ext : Collaborators}.

(** The analysis panel, for the result [r] stored in a session in [mode]. *)
Lemma analysis_panel_run (mode : string) (r : stored_result) (w : world)
    (scr : list ui) :
  analysis_panel (final mode r w scr) =
  match r with
  | NoResult =>
      (Return tt,
       final mode r w (scr ++ [ui_static analysis_panel_title;
                               ui_static awaiting_input_card]))
  | StoredResult status message info =>
      render_results status message info
        (final mode r w (scr ++ [ui_static analysis_panel_title]))
  end.
Proof.
  unfold analysis_panel. rewrite App_bind_run, emit_run.
  rewrite App_bind_run. unfold get_result, draw, final. cbn [app_session ss_result].
  destruct r as [|status message info]; [|reflexivity].
  rewrite emit_run. unfold draw. simpl. by rewrite <- app_assoc.
Qed.

(** One run of [main], by what it was asked to analyse and how the pipeline
    ended. *)
Lemma main_cases (inputs : widget_inputs) (s : app) :
  let mode := next_mode inputs (ss_mode (app_session s)) in
  let r0 := default NoResult (ss_result (app_session s)) in
  let scr := app_screen s ++ before_panel inputs s in
  main inputs s =
  match requested inputs mode with
  | None => analysis_panel (final mode r0 (app_fs s) scr)
  | Some uploaded_file =>
      match process_audio_file uploaded_file (app_fs s) with
      | (Return (status, message, info), w) =>
          analysis_panel (final mode (StoredResult status message info) w scr)
      | (Raise e, w) => (Raise e, final mode r0 w scr)
      end
  end.
Proof.
  intros mode r0 scr. rewrite main_run, App_bind_run.
  rewrite (input_controls_run inputs mode) by reflexivity.
  cbv zeta. fold mode. subst scr. unfold before_panel. fold mode.
  rewrite app_assoc.
  destruct (requested inputs mode) as [uploaded_file|]; [|reflexivity].
  cbn [app_fs at_controls].
  by destruct (process_audio_file uploaded_file (app_fs s))
    as [[[[status message] info]|e] w].
Qed.

Lemma analysis_panel_frame (mode : string) (r : stored_result) (w : world)
    (scr : list ui) :
  exists evs,
    (analysis_panel (final mode r w scr)).2
    = final mode r w (scr ++ ui_static analysis_panel_title :: evs) /\
    catchable (analysis_panel (final mode r w scr)).1 /\
    match r with
    | NoResult =>
        (analysis_panel (final mode r w scr)).1 = Return tt /\
        evs = [ui_static awaiting_input_card]
    | StoredResult status message info =>
        result_calls evs = render_result_card status message /\
        (pipeline_record info ->
         (analysis_panel (final mode r w scr)).1 = Return tt)
    end.
Proof.
  rewrite analysis_panel_run. destruct r as [|status message info].
  - eexists. split; [reflexivity|]. by split.
  - destruct (render_results_frame status message info
                (final mode (StoredResult status message info) w
                   (scr ++ [ui_static analysis_panel_title])))
      as (evs & Hst & Hcalls & Hcatch & _).
    exists evs. split.
    { rewrite Hst. unfold draw, final. simpl. by rewrite <- app_assoc. }
    split; [done|]. split; [done|].
    intros (n & sr & d & p & en & y & ->). by rewrite render_results_run.
Qed.

End Runs.

Section ScreenFacts.

Local Open Scope list_scope.

Context `{fmt : Formatting} `{ext : Collaborators}.

Lemma process_audio_file_pipeline_record
    (uploaded_file : UploadedFile) (w w' : world)
    (status : Z) (message : string) (info : gmap string pyval) :
  process_audio_file uploaded_file w = (Return (status, message, info), w') ->
  exists y sr duration avg_pitch avg_energy,
    info = audio_info_dict (Z.of_nat (length y)) sr duration avg_pitch avg_energy y.
Proof.
  rewrite process_audio_file_run, try_finally_rmtree.
  destruct (process_body _ _ _) as [r wb] eqn:Hb. simpl. intros [= -> _].
  by apply process_body_info in Hb.
Qed.

Lemma rendering_result_calls (status : Z) (message : string) (samples sr : Z)
    (duration avg_pitch avg_energy : npfloat) (waveform : list npfloat) :
  result_calls (rendering status message samples sr duration avg_pitch
                  avg_energy waveform)
  = render_result_card status message.
Proof.
  unfold rendering. rewrite !result_calls_app, result_calls_ui_result.
  destruct waveform; simpl; by rewrite app_nil_r.
Qed.

Lemma rendering_small_cards (status : Z) (message : string) (samples sr : Z)
    (duration avg_pitch avg_energy : npfloat) (waveform : list npfloat) :
  small_cards (rendering status message samples sr duration avg_pitch
                 avg_energy waveform)
  = [("Duration", format_fixed 2 duration);
     ("Sample Rate", format_plain (VInt sr));
     ("Samples", format_plain (VInt samples));
     ("Average Pitch",
      if isnan avg_pitch then EmptyString else format_fixed 2 avg_pitch);
     ("Voice Energy",
      if isnan avg_energy then EmptyString else format_fixed 5 avg_energy)].
Proof.
  unfold rendering, small_cards, render_result_card.
  destruct (status =? 1)%Z; [destruct (str_contains _ _)|];
    destruct waveform; reflexivity.
Qed.

Lemma rendering_waveform (status : Z) (message : string) (samples sr : Z)
    (duration avg_pitch avg_energy : npfloat) (waveform : list npfloat) :
  let evs := rendering status message samples sr duration avg_pitch
               avg_energy waveform in
  plotted evs = match waveform with [] => [] | _ :: _ => [waveform] end /\
  (In (ui_info "Waveform not available for this audio.") evs <-> waveform = []).
Proof.
  unfold rendering, plotted, render_result_card.
  destruct (status =? 1)%Z; [destruct (str_contains _ _)|];
    destruct waveform; simpl; (split; [reflexivity|]);
    (split; [intros H; repeat (destruct H as [H|H]; try discriminate); done
            |intros H; try discriminate; tauto]).
Qed.

(** X9.  [render_results] accepts every record that [process_audio_file]
    returns: it returns normally, leaves session and file system as they
    are, and draws the result card of the status and message followed by
    five descriptor cards, labelled Duration, Sample Rate, Samples, Average
    Pitch and Voice Energy, in this order. *)
Theorem render_results_accepts_pipeline_records
    (uploaded_file : UploadedFile) (w w' : world)
    (status : Z) (message : string) (info : gmap string pyval) (s : app) :
  process_audio_file uploaded_file w = (Return (status, message, info), w') ->
  exists evs,
    render_results status message info s = (Return tt, draw evs s) /\
    result_calls evs = render_result_card status message /\
    (small_cards evs).*1
    = ["Duration"; "Sample Rate"; "Samples"; "Average Pitch"; "Voice Energy"].
Proof.
  intros Hrun.
  apply process_audio_file_pipeline_record in Hrun
    as (y & sr & d & p & en & ->).
  eexists. split; [apply render_results_run|].
  split; [apply rendering_result_calls|].
  by rewrite rendering_small_cards.
Qed.

(** X10.  [render_results] needs all six keys.  On a record that lacks one
    of them it raises an exception of class [Exception], after it has drawn
    the result card. *)
Theorem render_results_missing_key_raises
    (status : Z) (message : string) (info : gmap string pyval)
    (k : string) (s : app) :
  k ∈ descriptor_keys ->
  info !! k = None ->
  exists msg evs,
    render_results status message info s = (Raise (PyException msg), draw evs s) /\
    result_calls evs = render_result_card status message.
Proof.
  intros Hk Hnone.
  destruct (render_results_frame status message info s)
    as (evs & Hst & Hcalls & Hcatch & Hkeys).
  destruct (render_results status message info s) as [[[]|e] s'] eqn:E;
    simpl in *.
  - destruct (Hkeys eq_refl k Hk) as [v Hv]. congruence.
  - destruct e as [msg|msg]; [|discriminate].
    exists msg, evs. by subst s'.
Qed.

(** X11.  In the rendering of a record that [process_audio_file] returned,
    a metric that is not-a-number is shown as a blank card, never as a
    number, and the waveform is plotted exactly when the record has
    samples: for an empty waveform nothing is plotted and the notice that
    no waveform is available is shown instead. *)
Theorem sentinels_render_blank
    (uploaded_file : UploadedFile) (w w' : world)
    (status : Z) (message : string) (info : gmap string pyval) (s : app) :
  process_audio_file uploaded_file w = (Return (status, message, info), w') ->
  exists evs y,
    render_results status message info s = (Return tt, draw evs s) /\
    info !! "waveform" = Some (VArr y) /\
    plotted evs = match y with [] => [] | _ :: _ => [y] end /\
    (In (ui_info "Waveform not available for this audio.") evs <-> y = []) /\
    (info !! "avg_pitch" = Some (VFloat NaN) ->
     In ("Average Pitch", EmptyString) (small_cards evs)) /\
    (info !! "avg_energy" = Some (VFloat NaN) ->
     In ("Voice Energy", EmptyString) (small_cards evs)).
Proof.
  intros Hrun.
  apply process_audio_file_pipeline_record in Hrun
    as (y & sr & d & p & en & ->).
  pose proof (audio_info_dict_lookup (Z.of_nat (length y)) sr d p en y)
    as (_ & _ & _ & Hp & He & Hw). cbv zeta in Hp, He, Hw.
  pose proof (rendering_waveform status message (Z.of_nat (length y)) sr d p en y)
    as [Hplot Hinfo]. cbv zeta in Hplot, Hinfo.
  eexists. exists y. split; [apply render_results_run|].
  split; [done|]. split; [done|]. split; [done|].
  rewrite rendering_small_cards, Hp, He.
  split; intros [= ->]; simpl; tauto.
Qed.

End ScreenFacts.

Section ScriptFacts.

Local Open Scope list_scope.

Context `{fmt : Formatting} `{ext : Collaborators}.

Lemma before_panel_plain (inputs : widget_inputs) (s : app) :
  result_calls (before_panel inputs s) = [] /\
  ~ In (ui_static analysis_panel_title) (before_panel inputs s).
Proof.
  unfold before_panel, prologue_events, controls_events, preview_events.
  destruct (String.eqb _ "upload");
    [destruct (file_uploader inputs), (analyze_upload inputs)
    |destruct (recorder inputs), (analyze_record inputs)];
    (split; [reflexivity|]); simpl; intros H;
    repeat (destruct H as [H|H]; try discriminate); done.
Qed.

(** The state a run ends in and its outcome, by what it was asked to
    analyse and how the pipeline ended. *)
Lemma main_outcome (inputs : widget_inputs) (s : app) :
  let mode := next_mode inputs (ss_mode (app_session s)) in
  let r0 := default NoResult (ss_result (app_session s)) in
  exists r w evs,
    (main inputs s).2 = final mode r w (app_screen s ++ evs) /\
    match requested inputs mode with
    | None =>
        r = r0 /\ w = app_fs s /\
        catchable (main inputs s).1 /\
        (match r0 with
         | StoredResult _ _ info => pipeline_record info
         | NoResult => True
         end -> (main inputs s).1 = Return tt)
    | Some uploaded_file =>
        match process_audio_file uploaded_file (app_fs s) with
        | (Return (status, message, info), w1) =>
            r = StoredResult status message info /\ w = w1 /\
            (main inputs s).1 = Return tt /\
            pipeline_record info /\
            result_calls evs = render_result_card status message
        | (Raise e, w1) =>
            r = r0 /\ w = w1 /\ (main inputs s).1 = Raise e /\
            ~ In (ui_static analysis_panel_title) evs
        end
    end.
Proof.
  intros mode r0. rewrite main_cases. fold mode r0.
  pose proof (before_panel_plain inputs s) as [Hplain Hnotitle].
  destruct (requested inputs mode) as [uploaded_file|].
  - destruct (process_audio_file uploaded_file (app_fs s))
      as [[[[status message] info]|e] w1] eqn:Hrun.
    + destruct (analysis_panel_frame mode (StoredResult status message info) w1
                  (app_screen s ++ before_panel inputs s))
        as (evs & Hst & Hcatch & Hcalls & Hret).
      assert (Hrec : pipeline_record info).
      { apply process_audio_file_pipeline_record in Hrun
          as (y & sr & d & p & en & ->). by eexists _, _, _, _, _, _. }
      exists (StoredResult status message info), w1,
        (before_panel inputs s ++ ui_static analysis_panel_title :: evs).
      split; [by rewrite Hst, <- app_assoc|].
      split; [done|]. split; [done|]. split; [by apply Hret|].
      split; [done|].
      rewrite result_calls_app, Hplain. simpl. exact Hcalls.
    + exists r0, w1, (before_panel inputs s). by repeat split.
  - destruct (analysis_panel_frame mode r0 (app_fs s)
                (app_screen s ++ before_panel inputs s))
      as (evs & Hst & Hcatch & Hr).
    exists r0, (app_fs s),
      (before_panel inputs s ++ ui_static analysis_panel_title :: evs).
    split; [by rewrite Hst, <- app_assoc|].
    split; [done|]. split; [done|]. split; [done|].
    destruct r0 as [|status message info]; [by destruct Hr|by destruct Hr].
Qed.

Lemma mode_after_run_valid (inputs : widget_inputs) (s : app) :
  ss_mode (app_session s) = None \/
  ss_mode (app_session s) = Some "upload" \/
  ss_mode (app_session s) = Some "record" ->
  ss_mode (app_session (main inputs s).2) = Some "upload" \/
  ss_mode (app_session (main inputs s).2) = Some "record".
Proof.
  destruct (main_outcome inputs s) as (r & w & evs & Hst & _).
  rewrite Hst. cbn [final app_session ss_mode]. unfold next_mode.
  destruct (mode_upload_btn inputs); [by left|].
  destruct (mode_record_btn inputs); [by right|].
  intros [->|[->| ->]]; simpl; auto.
Qed.

(** X12.  After a run of [main], however it ends, the session's mode is the
    one the buttons ask for: "upload" when the upload button was pressed
    (also when both were), "record" when only the record button was, and
    otherwise the mode before the run, "upload" in a new session.  So the
    mode stays one of "upload" and "record". *)
Theorem mode_after_run (inputs : widget_inputs) (s : app) :
  ss_mode (app_session (main inputs s).2)
  = Some (next_mode inputs (ss_mode (app_session s))) /\
  (ss_mode (app_session s) = None \/
   ss_mode (app_session s) = Some "upload" \/
   ss_mode (app_session s) = Some "record" ->
   ss_mode (app_session (main inputs s).2) = Some "upload" \/
   ss_mode (app_session (main inputs s).2) = Some "record").
Proof.
  split; [|apply mode_after_run_valid].
  destruct (main_outcome inputs s) as (r & w & evs & Hst & _).
  by rewrite Hst.
Qed.


(** X14.  When a run analyses a file and [process_audio_file] returns, the
    run returns normally, the returned triple becomes the stored result,
    and the result card of that very status and message is the one drawn in
    the same run. *)
Theorem run_with_analysis_stores_and_shows
    (inputs : widget_inputs) (s : app) (uploaded_file : UploadedFile)
    (status : Z) (message : string) (info : gmap string pyval) (w : world) :
  requested inputs (next_mode inputs (ss_mode (app_session s)))
  = Some uploaded_file ->
  process_audio_file uploaded_file (app_fs s)
  = (Return (status, message, info), w) ->
  (main inputs s).1 = Return tt /\
  ss_result (app_session (main inputs s).2)
  = Some (StoredResult status message info) /\
  app_fs (main inputs s).2 = w /\
  exists evs,
    app_screen (main inputs s).2 = app_screen s ++ evs /\
    result_calls evs = render_result_card status message.
Proof.
  intros Hreq Hrun. destruct (main_outcome inputs s) as (r & w1 & evs & Hst & H).
  rewrite Hreq, Hrun in H. destruct H as (-> & -> & Hret & _ & Hcalls).
  rewrite Hst. split; [done|]. split; [done|]. split; [done|]. by exists evs.
Qed.

(** X15.  When a run analyses a file and [process_audio_file] raises, the
    run raises the same exception: nothing in [main] catches it.  The
    stored result stays what it was, and the analysis panel is not drawn in
    that run. *)
Theorem run_with_failing_analysis_raises
    (inputs : widget_inputs) (s : app) (uploaded_file : UploadedFile)
    (e : exn) (w : world) :
  requested inputs (next_mode inputs (ss_mode (app_session s)))
  = Some uploaded_file ->
  process_audio_file uploaded_file (app_fs s) = (Raise e, w) ->
  (main inputs s).1 = Raise e /\
  ss_result (app_session (main inputs s).2)
  = Some (default NoResult (ss_result (app_session s))) /\
  app_fs (main inputs s).2 = w /\
  exists evs,
    app_screen (main inputs s).2 = app_screen s ++ evs /\
    ~ In (ui_static analysis_panel_title) evs.
Proof.
  intros Hreq Hrun. destruct (main_outcome inputs s) as (r & w1 & evs & Hst & H).
  rewrite Hreq, Hrun in H. destruct H as (-> & -> & Hret & Hno).
  rewrite Hst. split; [done|]. split; [done|]. split; [done|]. by exists evs.
Qed.

(** X16.  The controls of the other mode play no part in a run: two runs
    from the same state whose inputs agree on the mode buttons and on the
    file and button of the panel of the mode the run is in are the same
    run, whatever the other panel's file and button are. *)
Theorem inactive_panel_is_ignored (inputs inputs' : widget_inputs) (s : app) :
  mode_upload_btn inputs = mode_upload_btn inputs' ->
  mode_record_btn inputs = mode_record_btn inputs' ->
  (if String.eqb (next_mode inputs (ss_mode (app_session s))) "upload" then
     file_uploader inputs = file_uploader inputs' /\
     analyze_upload inputs = analyze_upload inputs'
   else
     recorder inputs = recorder inputs' /\
     analyze_record inputs = analyze_record inputs') ->
  main inputs s = main inputs' s.
Proof.
  intros Hu Hr Hpanel. rewrite !main_cases. cbv zeta.
  assert (Hmode : next_mode inputs (ss_mode (app_session s))
                  = next_mode inputs' (ss_mode (app_session s)))
    by (unfold next_mode; by rewrite Hu, Hr).
  rewrite <- Hmode.
  assert (Hreq : requested inputs (next_mode inputs (ss_mode (app_session s)))
                 = requested inputs' (next_mode inputs (ss_mode (app_session s)))).
  { unfold requested.
    destruct (String.eqb _ "upload"); destruct Hpanel as [-> ->]; done. }
  assert (Hbefore : before_panel inputs s = before_panel inputs' s).
  { unfold before_panel. rewrite <- Hmode. f_equal. unfold controls_events.
    destruct (String.eqb _ "upload"); destruct Hpanel as [-> ->]; done. }
  by rewrite Hreq, Hbefore.
Qed.

(** X17.  With a session as runs of [main] leave it, a run raises only when
    it analysed a file and [process_audio_file] raised, and then it raises
    that exception: drawing the stored result never fails. *)
Theorem run_raises_only_pipeline_errors
    (inputs : widget_inputs) (s : app) (e : exn) :
  session_ok (app_session s) ->
  (main inputs s).1 = Raise e ->
  exists uploaded_file w,
    requested inputs (next_mode inputs (ss_mode (app_session s)))
    = Some uploaded_file /\
    process_audio_file uploaded_file (app_fs s) = (Raise e, w).
Proof.
  intros [_ Hres] Hraise.
  destruct (main_outcome inputs s) as (r & w1 & evs & Hst & H).
  destruct (requested inputs _) as [uploaded_file|].
  - destruct (process_audio_file uploaded_file (app_fs s))
      as [[[[status message] info]|e'] w'] eqn:Hrun.
    + destruct H as (_ & _ & Hret & _). congruence.
    + destruct H as (_ & _ & Hret & _). exists uploaded_file, w'.
      split; [done|]. congruence.
  - destruct H as (_ & _ & _ & Hret).
    rewrite Hret in Hraise; [discriminate|].
    destruct (ss_result (app_session s)) as [[|status message info]|]; done.
Qed.

Lemma main_keeps_session_ok (inputs : widget_inputs) (s : app) :
  session_ok (app_session s) -> session_ok (app_session (main inputs s).2).
Proof.
  intros [Hmode Hres]. split.
  - right. by apply mode_after_run_valid.
  - destruct (main_outcome inputs s) as (r & w1 & evs & Hst & H).
    rewrite Hst. cbn [final app_session ss_result].
    destruct (requested inputs _) as [uploaded_file|].
    + destruct (process_audio_file uploaded_file (app_fs s))
        as [[[[status message] info]|e'] w'].
      * by destruct H as (-> & _ & _ & Hrec & _).
      * destruct H as (-> & _).
        destruct (ss_result (app_session s)) as [[|status message info]|]; done.
    + destruct H as (-> & _).
      destruct (ss_result (app_session s)) as [[|status message info]|]; done.
Qed.

Lemma main_returns_or_pipeline_raises (inputs : widget_inputs) (s : app) :
  session_ok (app_session s) ->
  (main inputs s).1 = Return tt \/
  exists e uploaded_file w,
    (main inputs s).1 = Raise e /\
    requested inputs (next_mode inputs (ss_mode (app_session s)))
    = Some uploaded_file /\
    process_audio_file uploaded_file (app_fs s) = (Raise e, w).
Proof.
  intros [_ Hres].
  destruct (main_outcome inputs s) as (r & w1 & evs & Hst & H).
  destruct (requested inputs _) as [uploaded_file|].
  - destruct (process_audio_file uploaded_file (app_fs s))
      as [[[[status message] info]|e] w'] eqn:Hrun.
    + left. by destruct H as (_ & _ & Hret & _).
    + right. exists e, uploaded_file, w'. by destruct H as (_ & _ & Hret & _).
  - left. destruct H as (_ & _ & _ & Hret). apply Hret.
    destruct (ss_result (app_session s)) as [[|status message info]|]; done.
Qed.

Lemma main_sets_session (inputs : widget_inputs) (s : app) :
  session_ok (app_session s) -> session_set (app_session (main inputs s).2).
Proof.
  intros Hok. pose proof (main_keeps_session_ok inputs s Hok) as [_ Hres].
  destruct Hok as [Hmode _].
  split; [by apply mode_after_run_valid|].
  destruct (main_outcome inputs s) as (r & w1 & evs & Hst & _).
  rewrite Hst in Hres |- *. cbn [final app_session ss_result] in *.
  by exists r.
Qed.

Lemma session_set_ok (s : session_state) : session_set s -> session_ok s.
Proof. intros [Hmode (r & Hr & Hrec)]. split; [by right|]. by rewrite Hr. Qed.

(** X18.  Over a whole browser session, whatever the interactions, starting
    from a new session or from any session that runs of [main] can leave:
    every run starts from a well-formed session and leaves one in which the
    mode is "upload" or "record" and a result is stored (none yet, or one
    carrying a record as the pipeline builds them), also when the run ends
    with an exception; and every run either returns or raises the exception
    that [process_audio_file] raised on the file the run was asked to
    analyse, in the file system the run started with. *)
Theorem session_stays_ok_over_runs
    (interactions : list widget_inputs) (s : app) :
  session_ok (app_session s) ->
  (runs interactions s).1
  = (fun run => (main run.1 run.2).1) <$> run_trace interactions s /\
  Forall (fun run =>
            session_ok (app_session run.2) /\
            session_set (app_session (main run.1 run.2).2) /\
            ((main run.1 run.2).1 = Return tt \/
             exists e uploaded_file w',
               (main run.1 run.2).1 = Raise e /\
               requested run.1 (next_mode run.1 (ss_mode (app_session run.2)))
               = Some uploaded_file /\
               process_audio_file uploaded_file (app_fs run.2) = (Raise e, w')))
    (run_trace interactions s) /\
  session_ok (app_session (runs interactions s).2) /\
  (interactions <> [] -> session_set (app_session (runs interactions s).2)).
Proof.
  revert s. induction interactions as [|inputs rest IH]; intros s Hok.
  - split; [done|]. split; [constructor|]. split; [done|]. by intros [].
  - cbn [runs run_trace]. cbv zeta.
    set (s0 := {| app_session := app_session s; app_fs := app_fs s;
                  app_screen := [] |}).
    pose proof (main_sets_session inputs s0 Hok) as Hset.
    pose proof (main_returns_or_pipeline_raises inputs s0 Hok) as Hout.
    pose proof (session_set_ok _ Hset) as Hok1.
    destruct (IH (main inputs s0).2 Hok1) as (Hres & Hall & Hok2 & Hset2).
    destruct (main inputs s0) as [r s1] eqn:Hmain. cbn [fst snd] in *.
    destruct (runs rest s1) as [rs s2] eqn:Hruns. cbn [fst snd] in *.
    split; [rewrite fmap_cons; cbn [fst snd]; by rewrite Hmain, Hres|].
    split.
    { constructor; [|done]. cbn [fst snd]. rewrite Hmain. cbn [fst snd].
      split; [exact Hok|]. split; [exact Hset|exact Hout]. }
    split; [done|]. intros _.
    destruct rest as [|inputs' rest']; [|by apply Hset2].
    cbn [runs] in Hruns. by injection Hruns as _ <-.
Qed.

End ScriptFacts.

Section Normaliser.

Local Open Scope list_scope.

Context `{ext : Collaborators}.

(** C5, as the code has it.  On a decoded array of [c] >= 2 channels the
    Normalizer first down-mixes: the signal [mono] has one sample per frame,
    the mean of the samples at that position of all [c] input channels (the
    arithmetic mean when they are numbers).  Its output is [mono] coerced to
    single precision when the native rate is 16000, sample for sample, and
    otherwise whatever the resampler returns on that coerced signal; a
    single-channel array passes the down-mix unchanged. *)
Theorem normalize_decoded_downmix (c : nat) (rows : list (list npfloat)) :
  2 <= c ->
  Forall (fun frame => length frame = c) rows ->
  exists mono,
    length mono = length rows /\
    (forall i, i < length rows ->
       mono !! i = Some (np_mean (across_channels c i rows))) /\
    (forall i qs, across_channels c i rows = map Num qs -> i < length rows ->
       mono !! i = Some (Num (arith_mean qs))) /\
    normalize_decoded (Arr2 rows, 16000%Z)
    = Return (np_array_float32 mono, 16000%Z) /\
    length (np_array_float32 mono) = length rows /\
    (forall i, i < length rows ->
       np_array_float32 mono !! i
       = Some (np_float32 (np_mean (across_channels c i rows)))) /\
    (forall sr0, sr0 <> 16000%Z ->
       normalize_decoded (Arr2 rows, sr0)
       = (y ← librosa_resample (np_array_float32 mono) sr0 16000;
          mret (y, 16000%Z))) /\
    (forall y sr0,
       normalize_decoded (Arr1 y, sr0)
       = if (sr0 =? 16000)%Z then Return (np_array_float32 y, 16000%Z)
         else (y' ← librosa_resample (np_array_float32 y) sr0 16000;
               mret (y', 16000%Z))).
Proof.
  intros Hc Hrect.
  destruct (to_mono_is_channel_mean c rows Hc Hrect)
    as (Hlen & Hmean & Harith & _).
  exists (to_mono (Arr2 rows)).
  split; [done|]. split; [done|]. split; [done|]. split; [reflexivity|].
  split; [unfold np_array_float32; by rewrite length_map|]. split.
  - intros i Hi. unfold np_array_float32.
    rewrite list_lookup_fmap, (Hmean i Hi). reflexivity.
  - split.
    + intros sr0 Hsr. unfold normalize_decoded, target_sr.
      destruct (Z.eqb_spec sr0 16000) as [->|_]; [done|]. reflexivity.
    + intros y sr0. unfold normalize_decoded, target_sr.
      destruct (Z.eqb_spec sr0 16000) as [->|_]; reflexivity.
Qed.

End Normaliser.

Section PitchSentinel.

Context `{ext : Collaborators}.

(** C7, as the code has it.  When the file decodes and normalises to the
    signal [y], however short, and the estimators fail only with catchable
    exceptions, [extract_audio_metadata] returns a record whose sample
    count is the length of [y] and whose duration is that length divided by
    16000; its average pitch is the mean of the frames the pitch estimator
    returned that are numbers, and it is not-a-number exactly when the
    estimator raised or returned no frame that is a number.  The length of
    [y] decides nothing by itself. *)
Theorem pitch_is_nan_iff_estimator_fails
    (filepath : string) (w : world) (d : ndarray * Z)
    (y : list npfloat) (sr : Z) :
  sf_read filepath w = Return d ->
  normalize_decoded d = Return (y, sr) ->
  catchable (librosa_yin y 50 300) ->
  catchable (librosa_rms y) ->
  exists info,
    extract_audio_metadata filepath w = (Return info, w) /\
    info !! "samples" = Some (VInt (Z.of_nat (length y))) /\
    info !! "duration" = Some (VFloat (Num (Qc_of_nat (length y) / Qc_of_Z 16000))) /\
    info !! "sr" = Some (VInt 16000) /\
    (forall frames, librosa_yin y 50 300 = Return frames ->
       info !! "avg_pitch" = Some (VFloat (np_nanmean frames))) /\
    (forall e, librosa_yin y 50 300 = Raise e ->
       info !! "avg_pitch" = Some (VFloat NaN)) /\
    (info !! "avg_pitch" = Some (VFloat NaN) <->
       (exists e, librosa_yin y 50 300 = Raise e) \/
       (exists frames, librosa_yin y 50 300 = Return frames /\
                       Forall (fun x => x = NaN) frames)).
Proof.
  intros Hread Hn Hp He.
  pose proof (normalize_decoded_sr _ _ _ Hn) as ->.
  eexists. split.
  { rewrite extract_audio_metadata_run, Hread, Hn. by apply describe_run. }
  match goal with |- context [audio_info_dict ?n ?r ?du ?p ?e ?v] =>
    pose proof (audio_info_dict_lookup n r du p e v)
      as (Hsamples & Hsr & Hd & Hpitch & _ & _) end.
  cbv zeta in Hsamples, Hsr, Hd, Hpitch.
  split; [done|]. split; [done|]. split; [done|].
  rewrite Hpitch. split; [by intros frames ->|]. split; [by intros e ->|].
  rewrite <- metric_of_nan. split; [by intros [= ->]|by intros ->].
Qed.

End PitchSentinel.

(** ** The further statements at work on the concrete settings *)

Section MoreInstances.

Local Open Scope list_scope.

Import Demo DemoApp.

Lemma yin_catchable (y : list npfloat) :
  catchable (librosa_yin (Collaborators := collaborators) y 50 300).
Proof. simpl. unfold yin. by destruct (length y <? 4)%nat. Qed.

Lemma rms_catchable (y : list npfloat) :
  catchable (librosa_rms (Collaborators := collaborators) y).
Proof. exact I. Qed.

Lemma clip_wav_run :
  run clip_wav
  = (Return (1%Z, "Real voice detected", clip_info), (run clip_wav).2).
Proof. vm_compute. reflexivity. Qed.

Lemma clip_mp3_run :
  run clip_mp3
  = (Return (1%Z, "Fake voice detected", default_audio_info), (run clip_mp3).2).
Proof. vm_compute. reflexivity. Qed.

Lemma broken_upload_run :
  process_audio_file (ext := collaborators) broken_upload empty_world
  = (Raise (PyException "ValueError: I/O operation on closed file."),
     (process_audio_file (ext := collaborators) broken_upload empty_world).2).
Proof. vm_compute. reflexivity. Qed.

(** The stream of the upload is closed. *)
Lemma staging_failure_witness :
  (process_audio_file (ext := collaborators) broken_upload empty_world).1
  = Raise (PyException "ValueError: I/O operation on closed file.").
Proof.
  apply (staging_failure_propagates (ext := collaborators)).
  left. eexists. reflexivity.
Defined.

(** The pitch estimator is interrupted on a decodable clip. *)
Lemma uncatchable_extraction_error_witness :
  (extract_audio_metadata (ext := interrupted)
     (staged_path clip_wav empty_world) (staged_world clip_wav)).1
  = Raise (PyBaseException "KeyboardInterrupt") /\
  (process_audio_file (ext := interrupted) clip_wav empty_world).1
  = Raise (PyBaseException "KeyboardInterrupt").
Proof.
  assert (Hx : (extract_audio_metadata (ext := interrupted)
                  (staged_path clip_wav empty_world) (staged_world clip_wav)).1
               = Raise (PyBaseException "KeyboardInterrupt"))
    by (vm_compute; reflexivity).
  split; [exact Hx|].
  refine (uncatchable_extraction_error_propagates (ext := interrupted)
            clip_wav empty_world (world_at_try clip_wav empty_world)
            (staged_world clip_wav) "RIFFmono16k" tt
            (PyBaseException "KeyboardInterrupt") _ _ Hx _);
    [vm_compute; reflexivity|vm_compute; reflexivity|reflexivity].
Defined.

(** A decodable clip and a classifier that returns. *)
Lemma classifier_outcome_witness :
  (extract_audio_metadata (ext := collaborators)
     (staged_path clip_wav empty_world) (staged_world clip_wav)).1
  = Return clip_info /\
  (run clip_wav).1 = Return (1%Z, "Real voice detected", clip_info).
Proof.
  assert (Hx : (extract_audio_metadata (ext := collaborators)
                  (staged_path clip_wav empty_world) (staged_world clip_wav)).1
               = Return clip_info) by (vm_compute; reflexivity).
  split; [exact Hx|].
  refine (classifier_outcome_passes_through (ext := collaborators)
            clip_wav empty_world (world_at_try clip_wav empty_world)
            (staged_world clip_wav) (staged_world clip_wav) "RIFFmono16k" tt
            clip_info (Return (1%Z, "Real voice detected")) _ _ Hx _);
    vm_compute; reflexivity.
Defined.

Lemma returned_record_shape_witness :
  dom clip_info = descriptor_keys /\
  (clip_info !! "sr" = Some (VInt 0) <-> clip_info = default_audio_info).
Proof.
  destruct (returned_record_shape (ext := collaborators) clip_wav empty_world
              _ _ _ _ clip_wav_run) as (Hdom & Hiff & _).
  split; assumption.
Defined.

(** The empty signal: the pitch estimator raises on it. *)
Lemma metric_is_nan_witness :
  exists info,
    describe (ext := collaborators) [] target_sr empty_world
    = (Return info, empty_world) /\
    info !! "avg_pitch" = Some (VFloat NaN).
Proof.
  destruct (metric_is_nan_iff_no_estimate (ext := collaborators) [] empty_world
              (yin_catchable []) (rms_catchable []))
    as (info & Hrun & Hp & _).
  exists info. split; [exact Hrun|].
  apply Hp. left. eexists. reflexivity.
Defined.

(** The staged MP3: the decoder raises, so does the extraction. *)
Lemma extraction_fails_witness :
  extract_audio_metadata (ext := collaborators)
    (staged_path clip_mp3 empty_world) (staged_world clip_mp3)
  = (Raise (PyException "LibsndfileError: Format not recognised."),
     staged_world clip_mp3).
Proof.
  destruct (extraction_fails_only_in_decode_or_resample (ext := collaborators)
              (staged_path clip_mp3 empty_world) (staged_world clip_mp3)
              yin_catchable rms_catchable) as [_ Hraise].
  apply Hraise. left. vm_compute. reflexivity.
Defined.

Lemma plain_name_witness :
  plain_file_name (name clip_wav) = true /\
  staged_path clip_wav empty_world = "0/clip.wav" /\
  files (run clip_wav).2 !! "0/clip.wav" = None.
Proof.
  destruct (plain_name_is_staged_inside_and_deleted (ext := collaborators)
              clip_wav empty_world) as (Hpath & _ & Hgone);
    [reflexivity|vm_compute; discriminate|vm_compute; reflexivity|].
  split; [reflexivity|]. split; [vm_compute; reflexivity|].
  replace "0/clip.wav" with (staged_path clip_wav empty_world)
    by (vm_compute; reflexivity).
  exact Hgone.
Defined.

Lemma absolute_name_witness :
  staged_path absolute_upload empty_world = "/srv/clip.wav" /\
  files (run absolute_upload).2 !! "/srv/clip.wav" = Some "RIFFmono16k".
Proof.
  destruct (absolute_name_escapes_temp_dir (ext := collaborators)
              absolute_upload empty_world) as [Hpath Hkept]; [reflexivity|].
  split; [exact Hpath|].
  unfold run. change "/srv/clip.wav" with (name absolute_upload).
  rewrite Hkept by (vm_compute; reflexivity).
  vm_compute. reflexivity.
Defined.

Lemma render_results_witness :
  exists evs,
    render_results (fmt := formatting) 1 "Real voice detected" clip_info new_session
    = (Return tt, draw evs new_session) /\
    (small_cards evs).*1
    = ["Duration"; "Sample Rate"; "Samples"; "Average Pitch"; "Voice Energy"].
Proof.
  destruct (render_results_accepts_pipeline_records (fmt := formatting)
              (ext := collaborators) clip_wav empty_world _ _ _ _
              new_session clip_wav_run) as (evs & Hrun & _ & Hcards).
  exists evs. split; assumption.
Defined.

(** The empty dictionary has no duration. *)
Lemma missing_key_witness :
  exists msg evs,
    render_results (fmt := formatting) 0 "Could not load audio" ∅ new_session
    = (Raise (PyException msg), draw evs new_session) /\
    result_calls evs = render_result_card 0 "Could not load audio".
Proof.
  apply (render_results_missing_key_raises (fmt := formatting)
           0 "Could not load audio" ∅ "duration" new_session).
  - unfold descriptor_keys. set_solver.
  - reflexivity.
Defined.

(** The default record: blank metrics, no plot. *)
Lemma sentinels_render_blank_witness :
  exists evs,
    render_results (fmt := formatting) 1 "Fake voice detected"
      default_audio_info new_session
    = (Return tt, draw evs new_session) /\
    plotted evs = [] /\
    In (ui_info "Waveform not available for this audio.") evs /\
    In ("Average Pitch", EmptyString) (small_cards evs).
Proof.
  destruct (sentinels_render_blank (fmt := formatting) (ext := collaborators)
              clip_mp3 empty_world _ _ _ _ new_session clip_mp3_run)
    as (evs & y & Hrun & Hw & Hplot & Hinfo & Hp & _).
  assert (Hy : y = []).
  { assert (H : default_audio_info !! "waveform" = Some (VArr []))
      by apply audio_info_dict_lookup.
    rewrite H in Hw. by injection Hw. }
  subst y. exists evs. split; [exact Hrun|]. split; [exact Hplot|].
  split; [by apply Hinfo|]. apply Hp. apply audio_info_dict_lookup.
Defined.


(** A decodable clip analysed in a new session. *)
Lemma run_with_analysis_witness :
  (script (analyze clip_wav) new_session).1 = Return tt /\
  ss_result (app_session (script (analyze clip_wav) new_session).2)
  = Some (StoredResult 1 "Real voice detected" clip_info).
Proof.
  destruct (run_with_analysis_stores_and_shows (fmt := formatting)
              (ext := collaborators) (analyze clip_wav) new_session clip_wav
              1 "Real voice detected" clip_info (run clip_wav).2)
    as (Hret & Hres & _); [reflexivity|exact clip_wav_run|].
  split; assumption.
Defined.

(** An upload that cannot be read, analysed in a new session. *)
Lemma run_with_failing_analysis_witness :
  (script (analyze broken_upload) new_session).1
  = Raise (PyException "ValueError: I/O operation on closed file.") /\
  ss_result (app_session (script (analyze broken_upload) new_session).2)
  = Some NoResult.
Proof.
  destruct (run_with_failing_analysis_raises (fmt := formatting)
              (ext := collaborators) (analyze broken_upload) new_session
              broken_upload _ _ eq_refl broken_upload_run)
    as (Hret & Hres & _).
  split; assumption.
Defined.

(** In upload mode a recording that waits in the other panel is not looked
    at. *)
Lemma inactive_panel_witness :
  script idle new_session = script idle_with_recording new_session.
Proof.
  apply (inactive_panel_is_ignored (fmt := formatting) (ext := collaborators)
           idle idle_with_recording new_session); [reflexivity|reflexivity|].
  split; reflexivity.
Defined.

Lemma new_session_ok : session_ok (app_session new_session).
Proof. split; [by left|exact I]. Qed.

Lemma run_raises_witness :
  exists uploaded_file w,
    requested (analyze broken_upload) "upload" = Some uploaded_file /\
    process_audio_file (ext := collaborators) uploaded_file empty_world
    = (Raise (PyException "ValueError: I/O operation on closed file."), w).
Proof.
  apply (run_raises_only_pipeline_errors (fmt := formatting)
           (ext := collaborators) (analyze broken_upload) new_session
           (PyException "ValueError: I/O operation on closed file.")
           new_session_ok).
  vm_compute. reflexivity.
Defined.

(** An analysis, a change of mode, a failing analysis, and a look. *)
Lemma runs_witness :
  session_ok (app_session new_session) /\
  session_set
    (app_session
       (runs (fmt := formatting) (ext := collaborators)
          [analyze clip_wav; switch_to_record; analyze broken_upload; idle]
          new_session).2) /\
  length
    (run_trace (fmt := formatting) (ext := collaborators)
       [analyze clip_wav; switch_to_record; analyze broken_upload; idle]
       new_session) = 4.
Proof.
  split; [exact new_session_ok|].
  destruct (session_stays_ok_over_runs (fmt := formatting)
              (ext := collaborators)
              [analyze clip_wav; switch_to_record; analyze broken_upload; idle]
              new_session new_session_ok) as (_ & _ & _ & Hset).
  split; [by apply Hset|reflexivity].
Defined.

End MoreInstances.

(** ** The amended statements at work *)

Section AmendedInstances.

Local Open Scope list_scope.

Import Demo DemoPad.

(** C5, as the claim states it, fails.  A stereo file of two frames at
    8 kHz: the Normalizer's output has four samples, so its samples are not
    the means of the two sample positions of the input. *)
Lemma resampled_output_is_not_the_channel_mean :
  stereo8k.1 = Arr2 [[Num 1%Qc; Num 0%Qc]; [Num half; Num quarter]] /\
  normalize_decoded (ext := collaborators) stereo8k
  = Return (mjoin (replicate 2 <$>
              np_array_float32 (ext := collaborators) (to_mono stereo8k.1)),
            16000%Z) /\
  length (mjoin (replicate 2 <$>
            np_array_float32 (ext := collaborators) (to_mono stereo8k.1))) = 4 /\
  length [[Num 1%Qc; Num 0%Qc]; [Num half; Num quarter]] = 2.
Proof. repeat split; reflexivity. Qed.

(** Two frames of two channels, at 16 kHz and at 8 kHz. *)
Lemma normalize_decoded_downmix_witness :
  2 <= 2 /\
  Forall (fun frame : list npfloat => length frame = 2)
    [[Num 1%Qc; Num 0%Qc]; [Num half; Num quarter]] /\
  exists mono,
    mono !! 0 = Some (Num (arith_mean [1%Qc; 0%Qc])) /\
    normalize_decoded (ext := collaborators)
      (Arr2 [[Num 1%Qc; Num 0%Qc]; [Num half; Num quarter]], 16000%Z)
    = Return (np_array_float32 (ext := collaborators) mono, 16000%Z) /\
    normalize_decoded (ext := collaborators)
      (Arr2 [[Num 1%Qc; Num 0%Qc]; [Num half; Num quarter]], 8000%Z)
    = Return (mjoin (replicate 2 <$> np_array_float32 (ext := collaborators) mono),
              16000%Z).
Proof.
  assert (Hc : 2 <= 2) by lia.
  assert (Hrect : Forall (fun frame : list npfloat => length frame = 2)
            [[Num 1%Qc; Num 0%Qc]; [Num half; Num quarter]])
    by (repeat constructor).
  split; [exact Hc|]. split; [exact Hrect|].
  destruct (normalize_decoded_downmix (ext := collaborators) 2 _ Hc Hrect)
    as (mono & Hlen & _ & Harith & H16 & _ & _ & Hres & _).
  exists mono. split; [apply Harith; [reflexivity|simpl; lia]|].
  split; [exact H16|].
  rewrite (Hres 8000%Z) by discriminate.
  destruct mono as [|a [|b [|? ?]]]; try discriminate. reflexivity.
Defined.

(** C7, as the claim states it, fails.  A clip of three samples, far
    shorter than the estimator's window of 2048: the estimator pads it and
    returns an estimate, and the average pitch is that number. *)
Lemma short_signal_gets_a_pitch :
  length (np_array_float32 (ext := padded) (to_mono mono16k.1)) = 3 /\
  librosa_yin (Collaborators := padded)
    (np_array_float32 (ext := padded) (to_mono mono16k.1)) 50 300
  = Return [Num padded_pitch] /\
  (extract_audio_metadata (ext := padded)
     (staged_path clip_wav empty_world) (staged_world clip_wav)).1
  = Return padded_clip_info /\
  padded_clip_info !! "avg_pitch" = Some (VFloat (np_nanmean [Num padded_pitch])) /\
  isnan (np_nanmean [Num padded_pitch]) = false.
Proof. repeat split; vm_compute; reflexivity. Qed.

(** The three-sample clip with the padding estimator. *)
Lemma pitch_is_nan_iff_witness :
  exists info,
    extract_audio_metadata (ext := padded)
      (staged_path clip_wav empty_world) (staged_world clip_wav)
    = (Return info, staged_world clip_wav) /\
    info !! "samples" = Some (VInt 3) /\
    info !! "duration" = Some (VFloat (Num (Qc_of_nat 3 / Qc_of_Z 16000))) /\
    info !! "avg_pitch" = Some (VFloat (np_nanmean [Num padded_pitch])).
Proof.
  destruct (pitch_is_nan_iff_estimator_fails (ext := padded)
              (staged_path clip_wav empty_world) (staged_world clip_wav)
              mono16k
              (np_array_float32 (ext := padded) (to_mono mono16k.1))
              16000%Z)
    as (info & Hrun & Hn & Hd & _ & Hpitch & _);
    [vm_compute; reflexivity|reflexivity|exact I|exact I|].
  exists info. split; [exact Hrun|]. split; [exact Hn|]. split; [exact Hd|].
  apply Hpitch. reflexivity.
Defined.

End AmendedInstances.
